(** * Handyman of Fairfax assistant: the server's handlers, embedded and verified

    The repository holds three revisions of one [server.js]:
    - the WebSocket-only server ([server.js]), module [Minimal];
    - the first Twilio revision ([app.post("/twilio-voice")]), module [TwilioV1];
    - the final revision ([app.all("/twilio-voice")], default knowledge record),
      module [Server].

    The handlers are JavaScript, so the embedding starts with the fragment of
    JavaScript they rely on: JSON values, truthiness, property access,
    [ToString], [String.prototype.trim], [Array.prototype.join], exceptions and
    [try]/[catch].  Effects (frames sent on the socket, documents sent over
    HTTP, calls to the completion API) are recorded in a trace. *)

From Stdlib Require Import String Ascii List ZArith QArith Bool Lia DecimalString.
Import ListNotations.

Local Open Scope list_scope.
Local Open Scope string_scope.
Local Set Warnings "-register-all".

(** ** JavaScript fragment *)

Module JS.

(** Characters that cannot be written inside a literal here. *)
Definition dq : string := Eval cbv in String (ascii_of_nat 34) EmptyString.
Definition nl : string := Eval cbv in String (ascii_of_nat 10) EmptyString.

(** A template literal that spans several source lines: one list element per
    source line, joined by line feeds. *)
Definition unlines (ls : list string) : string := String.concat nl ls.

(** Values: what [JSON.parse] and the form-body parser produce, plus
    [undefined].  Strings are byte sequences (UTF-8); numbers are the integers
    (the handlers only test a number's truthiness and print it). *)
Inductive value : Type :=
| VUndef
| VNull
| VBool (b : bool)
| VNum (n : Z)
| VStr (s : string)
| VArr (elems : list value)
| VObj (fields : list (string * value)).

Inductive exn : Type :=
| TypeError (msg : string)
| SyntaxError (msg : string)
| JsError (msg : string).          (* [new Error(msg)] *)

Definition res (A : Type) : Type := (exn + A)%type.

Fixpoint lookup (k : string) (fields : list (string * value)) : option value :=
  match fields with
  | [] => None
  | (k', v) :: rest => if String.eqb k k' then Some v else lookup k rest
  end.

Definition has_key (k : string) (fields : list (string * value)) : bool :=
  match lookup k fields with Some _ => true | None => false end.

(** [ToBoolean]. *)
Definition truthy (v : value) : bool :=
  match v with
  | VUndef | VNull => false
  | VBool b => b
  | VNum n => negb (Z.eqb n 0)
  | VStr s => negb (String.eqb s "")
  | VArr _ | VObj _ => true
  end.

(** [a || b]. *)
Definition or_else (a b : value) : value := if truthy a then a else b.

Definition nullish (v : value) : bool :=
  match v with VUndef | VNull => true | _ => false end.

(** [v.k] for the property names the server reads: none of them is an index,
    [length] or a member of a built-in prototype, so only plain objects can
    hold them. *)
Definition get_field (v : value) (k : string) : res value :=
  match v with
  | VUndef => inl (TypeError ("Cannot read properties of undefined (reading '" ++ k ++ "')"))
  | VNull => inl (TypeError ("Cannot read properties of null (reading '" ++ k ++ "')"))
  | VObj fields => inr (match lookup k fields with Some x => x | None => VUndef end)
  | VBool _ | VNum _ | VStr _ | VArr _ => inr VUndef
  end.

(** [v?.k]. *)
Definition opt_field (v : value) (k : string) : res value :=
  if nullish v then inr VUndef else get_field v k.

(** [v?.[0]]. *)
Definition opt_first (v : value) : res value :=
  match v with
  | VUndef | VNull => inr VUndef
  | VArr [] => inr VUndef
  | VArr (x :: _) => inr x
  | VStr EmptyString => inr VUndef
  | VStr (String c _) => inr (VStr (String c EmptyString))
  | VObj fields => inr (match lookup "0" fields with Some x => x | None => VUndef end)
  | VBool _ | VNum _ => inr VUndef
  end.

Definition Z_to_string (n : Z) : string :=
  NilZero.string_of_int (Z.to_int n).

(** Joins the pieces with [sep]; the first piece that threw wins. *)
Fixpoint collect (sep : string) (pieces : list (res string)) : res string :=
  match pieces with
  | [] => inr ""
  | [p] => p
  | p :: rest =>
      match p with
      | inl e => inl e
      | inr s =>
          match collect sep rest with
          | inl e => inl e
          | inr t => inr (s ++ sep ++ t)
          end
      end
  end.

(** [ToString].  A plain object prints as [[object Object]]; an object parsed
    from JSON with an own [toString] key shadows the inherited method with a
    non-function, and the conversion throws.  An array prints as
    [join(",")]. *)
Fixpoint ToString (v : value) : res string :=
  match v with
  | VUndef => inr "undefined"
  | VNull => inr "null"
  | VBool true => inr "true"
  | VBool false => inr "false"
  | VNum n => inr (Z_to_string n)
  | VStr s => inr s
  | VArr elems =>
      collect ","
        (map (fun x => match x with
                       | VUndef | VNull => inr ""
                       | _ => ToString x
                       end) elems)
  | VObj fields =>
      if has_key "toString" fields
      then inl (TypeError "Cannot convert object to primitive value")
      else inr "[object Object]"
  end.

(** The text [Array.prototype.join] uses for one element. *)
Definition elem_text (x : value) : res string :=
  match x with
  | VUndef | VNull => inr ""
  | _ => ToString x
  end.

(** [Array.isArray(v)]. *)
Definition isArray (v : value) : bool :=
  match v with VArr _ => true | _ => false end.

(** [v.join(sep)]: only arrays have the method. *)
Definition call_join (v : value) (sep : string) : res string :=
  match v with
  | VArr elems => collect sep (map elem_text elems)
  | VUndef => inl (TypeError "Cannot read properties of undefined (reading 'join')")
  | VNull => inl (TypeError "Cannot read properties of null (reading 'join')")
  | _ => inl (TypeError "join is not a function")
  end.

(** *** [String.prototype.trim]

    White space and line terminators of ECMAScript, in their UTF-8 encoding:
    one byte (TAB, LF, VT, FF, CR, SP), two bytes (U+00A0) or three bytes
    (U+1680, U+2000..U+200A, U+2028, U+2029, U+202F, U+205F, U+3000, U+FEFF). *)
Definition is_ws1 (c : ascii) : bool :=
  let n := nat_of_ascii c in
  ((9 <=? n) && (n <=? 13) || (n =? 32))%nat.

Definition is_ws2 (c1 c2 : ascii) : bool :=
  ((nat_of_ascii c1 =? 194) && (nat_of_ascii c2 =? 160))%nat.

Definition is_ws3 (c1 c2 c3 : ascii) : bool :=
  let a := nat_of_ascii c1 in
  let b := nat_of_ascii c2 in
  let c := nat_of_ascii c3 in
  ((a =? 225) && (b =? 154) && (c =? 128)
   || (a =? 226) && (b =? 128)
      && ((128 <=? c) && (c <=? 138) || (c =? 168) || (c =? 169) || (c =? 175))
   || (a =? 226) && (b =? 129) && (c =? 159)
   || (a =? 227) && (b =? 128) && (c =? 128)
   || (a =? 239) && (b =? 187) && (c =? 191))%nat.

Fixpoint trimStart (s : string) : string :=
  match s with
  | EmptyString => s
  | String c1 r1 =>
      if is_ws1 c1 then trimStart r1 else
      match r1 with
      | String c2 r2 =>
          if is_ws2 c1 c2 then trimStart r2 else
          match r2 with
          | String c3 r3 => if is_ws3 c1 c2 c3 then trimStart r3 else s
          | EmptyString => s
          end
      | EmptyString => s
      end
  end.

(** Is [s] white space only? *)
Fixpoint blank (s : string) : bool :=
  match s with
  | EmptyString => true
  | String c1 r1 =>
      if is_ws1 c1 then blank r1 else
      match r1 with
      | String c2 r2 =>
          if is_ws2 c1 c2 then blank r2 else
          match r2 with
          | String c3 r3 => if is_ws3 c1 c2 c3 then blank r3 else false
          | EmptyString => false
          end
      | EmptyString => false
      end
  end.

Fixpoint trimEnd (s : string) : string :=
  match s with
  | EmptyString => s
  | String c r => if blank s then EmptyString else String c (trimEnd r)
  end.

Definition trim (s : string) : string := trimEnd (trimStart s).

(** [v.trim()]: only strings have the method; an object parsed from JSON can
    hold a [trim] key, but never a function. *)
Definition call_trim (v : value) : res string :=
  match v with
  | VStr s => inr (trim s)
  | VUndef => inl (TypeError "Cannot read properties of undefined (reading 'trim')")
  | VNull => inl (TypeError "Cannot read properties of null (reading 'trim')")
  | _ => inl (TypeError "trim is not a function")
  end.

(** *** [String.prototype.replace] with a global one-character pattern *)
Fixpoint replace_all (c : ascii) (by_ : string) (s : string) : string :=
  match s with
  | EmptyString => EmptyString
  | String x r =>
      if Ascii.eqb x c then by_ ++ replace_all c by_ r
      else String x (replace_all c by_ r)
  end.

(** *** Substring tests *)
Fixpoint startsWith (p s : string) : bool :=
  match p, s with
  | EmptyString, _ => true
  | String _ _, EmptyString => false
  | String a p', String b s' => Ascii.eqb a b && startsWith p' s'
  end.

(** [s.includes(p)]. *)
Fixpoint includes (p s : string) : bool :=
  startsWith p s ||
  match s with
  | EmptyString => false
  | String _ r => includes p r
  end.

Fixpoint has_char (c : ascii) (s : string) : bool :=
  match s with
  | EmptyString => false
  | String x r => Ascii.eqb x c || has_char c r
  end.

End JS.

(** ** Effects

    A handler either completes or throws, and leaves a trace of what it did to
    the outside: frames sent on the socket, documents sent over HTTP, requests
    made to the completion API.  ([console.log] is left out.) *)

Module Eff.
Import JS.

(** The body of a chat-completion request, before [JSON.stringify]. *)
Record completion_body : Type := {
  model : string;
  messages : list (string * string);     (* role, content *)
  temperature : Q
}.

Record request : Type := {
  url : string;
  method : string;
  headers : list (string * string);
  body : completion_body
}.

(** What [fetch] resolves to.  [text] is the raw body ([response.text()]) and
    [json] the outcome of [response.json()]: [None] when the body is not
    JSON. *)
Record response : Type := {
  ok : bool;
  status : Z;
  text : string;
  json : option value
}.

Inductive fetch_outcome : Type :=
| Rejected (e : exn)          (* the request itself failed *)
| Resolved (r : response).

(** A reply on the socket, before [JSON.stringify]:
    [{type: "info", message}], [{type: "answer", answer}] or
    [{type: "error", message}]. *)
Inductive frame : Type :=
| InfoFrame (message : string)
| AnswerFrame (answer : string)
| ErrorFrame (message : string).

Definition frame_type (f : frame) : string :=
  match f with
  | InfoFrame _ => "info"
  | AnswerFrame _ => "answer"
  | ErrorFrame _ => "error"
  end.

Inductive event : Type :=
| Fetch (rq : request)
| WsSend (f : frame)
| HttpSend (content_type : string) (document : string).

Definition M (A : Type) : Type := (res A * list event)%type.

Definition ret {A} (a : A) : M A := (inr a, []).
Definition throw {A} (e : exn) : M A := (inl e, []).
Definition lift {A} (r : res A) : M A := (r, []).
Definition emit (ev : event) : M unit := (inr tt, [ev]).

Definition bind {A B} (m : M A) (k : A -> M B) : M B :=
  match m with
  | (inl e, t) => (inl e, t)
  | (inr a, t) => let (r, t') := k a in (r, (t ++ t')%list)
  end.

(** [try { m } catch (err) { h err }]: what [m] did before it threw stays
    done. *)
Definition try_catch {A} (m : M A) (h : exn -> M A) : M A :=
  match m with
  | (inl e, t) => let (r, t') := h e in (r, (t ++ t')%list)
  | (inr a, t) => (inr a, t)
  end.

(** Sequencing of computations that can only throw. *)
Definition rbind {A B} (r : res A) (k : A -> res B) : res B :=
  match r with
  | inl e => inl e
  | inr a => k a
  end.

Declare Scope js_scope.
Delimit Scope js_scope with js.
Notation "x <- m ;; k" := (bind m (fun x => k))
  (at level 61, m at next level, right associativity) : js_scope.
Notation "x <~ r ;; k" := (rbind r (fun x => k))
  (at level 61, r at next level, right associativity) : js_scope.

(** [await fetch(...)] against a completion service [api]. *)
Definition do_fetch (api : request -> fetch_outcome) (rq : request) : M response :=
  match api rq with
  | Rejected e => (inl e, [Fetch rq])
  | Resolved r => (inr r, [Fetch rq])
  end.

(** [await response.json()]. *)
Definition response_json (r : response) : res value :=
  match json r with
  | Some v => inr v
  | None => inl (SyntaxError "Unexpected token in JSON")
  end.

(** *** Reading a trace *)

Definition frames_sent (t : list event) : list frame :=
  flat_map (fun ev => match ev with WsSend f => [f] | _ => [] end) t.

Definition documents_sent (t : list event) : list string :=
  flat_map (fun ev => match ev with HttpSend _ d => [d] | _ => [] end) t.

Definition requests_made (t : list event) : list request :=
  flat_map (fun ev => match ev with Fetch rq => [rq] | _ => [] end) t.

(** Module-level state of the server: [process.env.OPENAI_API_KEY] and the
    loaded knowledge record. *)
Record globals : Type := {
  OPENAI_API_KEY : option string;
  knowledgeBase : value
}.

(** [OPENAI_API_KEY] as a value: unset is [undefined]. *)
Definition key_value (g : globals) : value :=
  match OPENAI_API_KEY g with
  | Some k => VStr k
  | None => VUndef
  end.

End Eff.

(** ** Code shared by the two Twilio revisions

    [escapeForXml], [askOpenAIForChat] and [askOpenAIForPhone] are the same
    text in both; only [buildSystemPrompt], which the last two call, differs. *)

Module Common.
Import JS Eff.
Local Open Scope js_scope.

(** [String(text).replace(/&/g, "&amp;").replace(/</g, "&lt;").replace(/>/g, "&gt;")]
    once [String(text)] is known. *)
Definition escape_text (s : string) : string :=
  replace_all ">" "&gt;" (replace_all "<" "&lt;" (replace_all "&" "&amp;" s)).

Definition escapeForXml (text : value) : res string :=
  s <~ ToString text ;;
  inr (escape_text s).

Definition chat_fallback : string :=
  "I'm not sure how to answer that, but a handyman can call you back with more details.".

Definition phone_fallback : string :=
  "Thank you for calling. A handyman will review your request and call you back shortly.".

Definition completions_url : string := "https://api.openai.com/v1/chat/completions".

(** [`Bearer ${OPENAI_API_KEY}`]. *)
Definition bearer (g : globals) : res string :=
  k <~ ToString (key_value g) ;;
  inr ("Bearer " ++ k).

(** [json.choices?.[0]?.message?.content]. *)
Definition first_content (j : value) : res value :=
  choices <~ get_field j "choices" ;;
  first <~ opt_first choices ;;
  message <~ opt_field first "message" ;;
  opt_field message "content".

(** From [if (!response.ok)] to [return answer.trim()]. *)
Definition read_answer (fallback : string) (r : response) : res string :=
  if negb (ok r) then
    inl (JsError ("OpenAI API error " ++ Z_to_string (status r) ++ ": " ++ text r))
  else
    j <~ response_json r ;;
    content <~ first_content j ;;
    call_trim (or_else content (VStr fallback)).

(** The caller's words as the phone path hands them to the model. *)
Definition userContent (speech fromNumber : string) : string :=
  unlines [
    "";
    "Caller phone number (from metadata, may be empty): " ++ fromNumber;
    "";
    "The caller said (transcription from Twilio SpeechResult):";
    "";
    dq ++ speech ++ dq;
    "";
    "Write a short, natural voice response that:";
    "- Acknowledges what they need.";
    "- Confirms whether it is something Handyman of Fairfax typically handles.";
    "- Mentions service area or limitations if relevant.";
    "- Briefly sets expectations about scheduling and pricing.";
    "- Sounds like a human speaking on the phone.";
    ""
  ].

Section Ask.

Variable buildSystemPrompt : value -> bool -> res string.
Variable g : globals.
Variable api : request -> fetch_outcome.

Definition completion_request (systemPrompt user : string) (temp : Q) (auth : string)
  : request :=
  {| url := completions_url;
     method := "POST";
     headers := [("Content-Type", "application/json"); ("Authorization", auth)];
     body := {| model := "gpt-4.1-mini";
                messages := [("system", systemPrompt); ("user", user)];
                temperature := temp |} |}.

Definition askOpenAIForChat (question : string) (kb : value) : M string :=
  systemPrompt <- lift (buildSystemPrompt kb false) ;;
  auth <- lift (bearer g) ;;
  response <- do_fetch api (completion_request systemPrompt question (3 # 10) auth) ;;
  lift (read_answer chat_fallback response).

Definition askOpenAIForPhone (speech : string) (kb : value) (fromNumber : value)
  : M string :=
  systemPrompt <- lift (buildSystemPrompt kb true) ;;
  number <- lift (ToString fromNumber) ;;
  auth <- lift (bearer g) ;;
  response <- do_fetch api
                (completion_request systemPrompt (userContent speech number) (4 # 10) auth) ;;
  lift (read_answer phone_fallback response).

End Ask.

(** The style line of the prompt that depends on the channel. *)
Definition style_line (forPhone : bool) : string :=
  if forPhone
  then "Write as if you are speaking aloud on the phone. No bullet points, just conversational sentences."
  else "In chat, short paragraphs and simple bullet points are okay.".

(** [`Q: ${f.q}\nA: ${f.a}`]. *)
Definition faq_text (f : value) : res string :=
  q <~ get_field f "q" ;;
  qs <~ ToString q ;;
  a <~ get_field f "a" ;;
  as_ <~ ToString a ;;
  inr ("Q: " ++ qs ++ nl ++ "A: " ++ as_).

(** [faqs.map(f => ...)]: the callback runs on the elements in order and the
    first throw ends the map. *)
Fixpoint map_faqs (faqs : list value) : res (list string) :=
  match faqs with
  | [] => inr []
  | f :: rest =>
      s <~ faq_text f ;;
      ss <~ map_faqs rest ;;
      inr (s :: ss)
  end.

(** [`${kb.k || fallback}`]. *)
Definition text_or (kb : value) (k fallback : string) : res string :=
  v <~ get_field kb k ;;
  ToString (or_else v (VStr fallback)).

(** [faqs.map((f) => ...).join("\n\n")]: only arrays have [map]. *)
Definition faqs_text (faqs : value) : res string :=
  match faqs with
  | VArr fs =>
      ss <~ map_faqs fs ;;
      inr (String.concat (nl ++ nl) ss)
  | VUndef => inl (TypeError "Cannot read properties of undefined (reading 'map')")
  | VNull => inl (TypeError "Cannot read properties of null (reading 'map')")
  | _ => inl (TypeError "map is not a function")
  end.

(** The prompt once every interpolation has its text. *)
Definition prompt_text (name location summary area hours services pricing booking
                        faqs : string) (forPhone : bool) : string :=
  unlines [
    "";
    "You are the intake and Q&A assistant for a local handyman service called "
      ++ dq ++ name ++ dq ++ " in " ++ location ++ ".";
    "";
    "You answer questions about:";
    "- Services provided";
    "- Service areas";
    "- Hours";
    "- Typical pricing ranges";
    "- How booking and scheduling works";
    "";
    "Business knowledge:";
    "SUMMARY:";
    summary;
    "";
    "SERVICE AREA:";
    area;
    "";
    "HOURS:";
    hours;
    "";
    "SERVICES:";
    services;
    "";
    "PRICING NOTES:";
    pricing;
    "";
    "BOOKING PROCESS:";
    booking;
    "";
    "FAQ EXAMPLES:";
    faqs;
    "";
    "Style guidelines:";
    "- Be friendly, clear, and professional.";
    "- Use short sentences.";
    "- Avoid jargon.";
    "- " ++ style_line forPhone;
    "- If the caller is outside the service area or asks for work you do not handle, say so politely and suggest they contact a different type of contractor.";
    "- Whenever appropriate, remind them that a handyman will follow up by phone or text to confirm details and scheduling.";
    ""
  ].

(** The socket's greeting, sent on [connection]. *)
Definition welcome : frame :=
  InfoFrame ("Connected to Handyman of Fairfax AI assistant. Send { " ++ dq ++ "question"
             ++ dq ++ ": " ++ dq ++ "..." ++ dq ++ " } as JSON.").

Definition missing_question : frame :=
  ErrorFrame ("Missing " ++ dq ++ "question" ++ dq ++ " field in payload.").

(** The document [twiml] sends. *)
Definition twiml_document (xmlBody : string) : string :=
  "<?xml version=" ++ dq ++ "1.0" ++ dq ++ " encoding=" ++ dq ++ "UTF-8" ++ dq
  ++ "?>" ++ nl ++ "<Response>" ++ xmlBody ++ "</Response>".

(** [res.set("Content-Type", "text/xml"); res.send(...)]. *)
Definition twiml (xmlBody : string) : M unit :=
  emit (HttpSend "text/xml" (twiml_document xmlBody)).

Definition responseTwiml (say : string) : string :=
  unlines [
    "";
    "      <Say voice=" ++ dq ++ "woman" ++ dq ++ ">";
    "        " ++ say;
    "      </Say>";
    "      <Pause length=" ++ dq ++ "1" ++ dq ++ "/>";
    "      <Say>";
    "        A member of the Handyman of Fairfax team will follow up with you as soon as possible.";
    "        Thank you for calling. Goodbye.";
    "      </Say>";
    "      <Hangup/>";
    "    "
  ].

Definition errorTwiml : string :=
  unlines [
    "";
    "      <Say>";
    "        I am sorry, but there was a problem handling your request.";
    "        Please try calling again in a few minutes.";
    "      </Say>";
    "      <Hangup/>";
    "    "
  ].

End Common.

(** ** The final revision: [app.all("/twilio-voice")] *)

Module Server.
Import JS Eff Common.
Local Open Scope js_scope.

Definition en_dash : string :=
  Eval cbv in
  String (ascii_of_nat 226) (String (ascii_of_nat 128) (String (ascii_of_nat 147) "")).

(** The record the server falls back to when [knowledge-base.json] cannot be
    read or parsed. *)
Definition default_knowledge : value :=
  VObj [
    ("business_name", VStr "Handyman of Fairfax");
    ("location", VStr "Fairfax, VA");
    ("summary", VStr "Local handyman service for small to medium home repairs, minor carpentry, TV mounting, and general home fixes.");
    ("service_area", VArr [VStr "Fairfax"; VStr "Fairfax Station"; VStr "Burke"; VStr "Springfield"]);
    ("hours", VStr ("Monday" ++ en_dash ++ "Saturday, 8:00 AM " ++ en_dash ++ " 6:00 PM"));
    ("contact_phone", VStr "(555) 555-5555")
  ].

(** Loading the knowledge base.  [source] is what
    [JSON.parse(fs.readFileSync(kbPath, "utf8"))] evaluates to, [None] when
    reading or parsing throws. *)
Definition load (source : option value) : value :=
  match source with
  | Some parsed => parsed
  | None => default_knowledge
  end.

(** [Array.isArray(kb.k) ? kb.k.join(sep) : ""]. *)
Definition joined (kb : value) (k sep : string) : res string :=
  v <~ get_field kb k ;;
  if isArray v then call_join v sep else inr "".

(** [Array.isArray(kb.faqs) ? kb.faqs.map(...).join("\n\n") : ""]. *)
Definition faqs_section (kb : value) : res string :=
  v <~ get_field kb "faqs" ;;
  if isArray v then faqs_text v else inr "".

Definition buildSystemPrompt (kb : value) (forPhone : bool) : res string :=
  name <~ text_or kb "business_name" "Handyman of Fairfax" ;;
  location <~ text_or kb "location" "Fairfax, VA" ;;
  summary <~ text_or kb "summary" "" ;;
  area <~ joined kb "service_area" ", " ;;
  hours <~ text_or kb "hours" "" ;;
  services <~ joined kb "services" "; " ;;
  pricing <~ joined kb "pricing_notes" "; " ;;
  booking <~ joined kb "booking_process" "; " ;;
  faqs <~ faqs_section kb ;;
  inr (trim (prompt_text name location summary area hours services pricing booking
               faqs forPhone)).

Definition askOpenAIForChat := Common.askOpenAIForChat buildSystemPrompt.
Definition askOpenAIForPhone := Common.askOpenAIForPhone buildSystemPrompt.

(** [wss.on("connection", ...)]. *)
Definition on_connection : M unit := emit (WsSend welcome).

Definition not_configured (phone : string) : string :=
  "The AI backend is not fully configured yet (missing API key). Please contact Handyman of Fairfax directly at "
  ++ phone ++ ".".

Definition chat_apology : string :=
  "There was a problem talking to the AI. Please try again later or call the handyman directly.".

(** [ws.on("message", async (data) => ...)].  [data] is what
    [JSON.parse(data.toString())] evaluates to, [None] when it throws. *)
Definition on_message (g : globals) (api : request -> fetch_outcome)
                      (data : option value) : M unit :=
  match data with
  | None => emit (WsSend (ErrorFrame "Invalid JSON"))
  | Some payload =>
      q <- lift (get_field payload "question") ;;
      question <- lift (call_trim (or_else q (VStr ""))) ;;
      if negb (truthy (VStr question)) then emit (WsSend missing_question)
      else if negb (truthy (key_value g)) then
        phone <- lift (get_field (knowledgeBase g) "contact_phone") ;;
        p <- lift (ToString (or_else phone (VStr "(phone not set)"))) ;;
        emit (WsSend (AnswerFrame (not_configured p)))
      else
        try_catch
          (answer <- askOpenAIForChat g api question (knowledgeBase g) ;;
           emit (WsSend (AnswerFrame answer)))
          (fun _ => emit (WsSend (ErrorFrame chat_apology)))
  end.

Definition gatherTwiml : string :=
  unlines [
    "";
    "      <Say voice=" ++ dq ++ "woman" ++ dq ++ ">";
    "        Thank you for calling Handyman of Fairfax, your local home repair specialist.";
    "      </Say>";
    "      <Pause length=" ++ dq ++ "1" ++ dq ++ "/>";
    "      <Gather input=" ++ dq ++ "speech" ++ dq ++ " action=" ++ dq ++ "/twilio-voice" ++ dq ++ " method=" ++ dq ++ "POST" ++ dq ++ " speechTimeout=" ++ dq ++ "auto" ++ dq ++ ">";
    "        <Say>";
    "          Please briefly describe what you need help with.";
    "          For example, you can say:";
    "          I need a TV mounted, or I have a leaky faucet, or my door will not close properly.";
    "          Then pause for a moment.";
    "        </Say>";
    "      </Gather>";
    "      <Say>Sorry, I did not catch that. Please call again later.</Say>";
    "    "
  ].

Definition fallback (phone : string) : string :=
  unlines [
    "";
    "      <Say>";
    "        Thank you. Our AI assistant is not available at this moment.";
    "        Please call us back at " ++ phone ++ ".";
    "      </Say>";
    "      <Hangup/>";
    "    "
  ].

(** [app.all("/twilio-voice", async (req, res) => ...)]; [body] is
    [req.body]. *)
Definition twilio_voice (g : globals) (api : request -> fetch_outcome)
                        (body : value) : M unit :=
  f <- lift (get_field body "From") ;;
  let from := or_else f (VStr "") in
  s <- lift (get_field body "SpeechResult") ;;
  speechResult <- lift (call_trim (or_else s (VStr ""))) ;;
  if negb (truthy (VStr speechResult)) then twiml gatherTwiml
  else if negb (truthy (key_value g)) then
    phone <- lift (get_field (knowledgeBase g) "contact_phone") ;;
    p <- lift (escapeForXml (or_else phone (VStr "our regular number"))) ;;
    twiml (fallback p)
  else
    try_catch
      (answer <- askOpenAIForPhone g api speechResult (knowledgeBase g) from ;;
       say <- lift (escapeForXml (VStr answer)) ;;
       twiml (responseTwiml say))
      (fun _ => twiml errorTwiml).

End Server.

(** ** Reading the knowledge record in the two earlier revisions *)

Module Earlier.
Import JS Eff Common.
Local Open Scope js_scope.

(** Both earlier revisions keep the initial [{}] when loading fails. *)
Definition load (source : option value) : value :=
  match source with
  | Some parsed => parsed
  | None => VObj []
  end.

(** [`${kb.k}`]. *)
Definition text_of (kb : value) (k : string) : res string :=
  v <~ get_field kb k ;;
  ToString v.

(** [(kb.k || []).join(sep)]. *)
Definition joined (kb : value) (k sep : string) : res string :=
  v <~ get_field kb k ;;
  call_join (or_else v (VArr [])) sep.

(** [(kb.faqs || []).map(...).join("\n\n")]. *)
Definition faqs_section (kb : value) : res string :=
  v <~ get_field kb "faqs" ;;
  faqs_text (or_else v (VArr [])).

Definition not_configured (phone : string) : string :=
  "The AI backend isn't fully configured yet (no API key). Please contact Handyman of Fairfax directly at "
  ++ phone ++ ".".

Definition chat_apology : string :=
  "There was a problem talking to the AI. Please try again, or call the handyman directly.".

(** [ws.on("message", ...)] is the same text in both earlier revisions, up
    to the name of the function that asks the model. *)
Definition on_message (ask : string -> value -> M string) (g : globals)
                      (data : option value) : M unit :=
  match data with
  | None => emit (WsSend (ErrorFrame "Invalid JSON"))
  | Some payload =>
      q <- lift (get_field payload "question") ;;
      question <- lift (call_trim (or_else q (VStr ""))) ;;
      if negb (truthy (VStr question)) then emit (WsSend missing_question)
      else if negb (truthy (key_value g)) then
        phone <- lift (get_field (knowledgeBase g) "contact_phone") ;;
        p <- lift (ToString (or_else phone (VStr "(phone not set)"))) ;;
        emit (WsSend (AnswerFrame (not_configured p)))
      else
        try_catch
          (answer <- ask question (knowledgeBase g) ;;
           emit (WsSend (AnswerFrame answer)))
          (fun _ => emit (WsSend (ErrorFrame chat_apology)))
  end.

End Earlier.

(** ** The first Twilio revision: [app.post("/twilio-voice")] *)

Module TwilioV1.
Import JS Eff Common.
Local Open Scope js_scope.

Definition load := Earlier.load.

Definition buildSystemPrompt (kb : value) (forPhone : bool) : res string :=
  name <~ Earlier.text_of kb "business_name" ;;
  location <~ Earlier.text_of kb "location" ;;
  summary <~ text_or kb "summary" "" ;;
  area <~ Earlier.joined kb "service_area" ", " ;;
  hours <~ text_or kb "hours" "" ;;
  services <~ Earlier.joined kb "services" "; " ;;
  pricing <~ Earlier.joined kb "pricing_notes" "; " ;;
  booking <~ Earlier.joined kb "booking_process" "; " ;;
  faqs <~ Earlier.faqs_section kb ;;
  inr (trim (prompt_text name location summary area hours services pricing booking
               faqs forPhone)).

Definition askOpenAIForChat := Common.askOpenAIForChat buildSystemPrompt.
Definition askOpenAIForPhone := Common.askOpenAIForPhone buildSystemPrompt.

Definition on_message (g : globals) (api : request -> fetch_outcome) :=
  Earlier.on_message (askOpenAIForChat g api) g.

Definition gatherTwiml : string :=
  unlines [
    "";
    "      <Say voice=" ++ dq ++ "woman" ++ dq ++ ">";
    "        Thank you for calling Handyman of Fairfax, your local home repair specialist.";
    "      </Say>";
    "      <Pause length=" ++ dq ++ "1" ++ dq ++ "/>";
    "      <Gather input=" ++ dq ++ "speech" ++ dq ++ " action=" ++ dq ++ "/twilio-voice" ++ dq ++ " method=" ++ dq ++ "POST" ++ dq ++ " speechTimeout=" ++ dq ++ "auto" ++ dq ++ ">";
    "        <Say>";
    "          Please briefly describe what you need help with.";
    "          For example, say something like:";
    "          I need a TV mounted, or I have a leaky faucet, or my door will not close properly.";
    "          Then pause for a moment.";
    "        </Say>";
    "      </Gather>";
    "      <Say>Sorry, I did not catch that. Please call again later.</Say>";
    "    "
  ].

Definition fallback (phone : string) : string :=
  unlines [
    "";
    "      <Say>";
    "        Thank you. Our AI assistant is not available at this moment.";
    "        Please call us back at " ++ phone ++ ".";
    "      </Say>";
    "    "
  ].

(** [app.post("/twilio-voice", async (req, res) => ...)]; [body] is
    [req.body]. *)
Definition twilio_voice (g : globals) (api : request -> fetch_outcome)
                        (body : value) : M unit :=
  f <- lift (get_field body "From") ;;
  let from := or_else f (VStr "") in
  s <- lift (get_field body "SpeechResult") ;;
  speechResult <- lift (call_trim (or_else s (VStr ""))) ;;
  if negb (truthy (VStr speechResult)) then twiml gatherTwiml
  else if negb (truthy (key_value g)) then
    phone <- lift (get_field (knowledgeBase g) "contact_phone") ;;
    p <- lift (escapeForXml (or_else phone (VStr "our regular number"))) ;;
    twiml (fallback p)
  else
    try_catch
      (answer <- askOpenAIForPhone g api speechResult (knowledgeBase g) from ;;
       say <- lift (escapeForXml (VStr answer)) ;;
       twiml (responseTwiml say))
      (fun _ => twiml errorTwiml).

End TwilioV1.

(** ** The WebSocket-only revision *)

Module Minimal.
Import JS Eff Common.
Local Open Scope js_scope.

Definition load := Earlier.load.

Definition systemPrompt (name location summary area hours services pricing booking
                         faqs : string) : string :=
  unlines [
    "";
    "You are the phone intake and Q&A assistant for a local handyman service called "
      ++ dq ++ name ++ dq ++ " in " ++ location ++ ".";
    "";
    "You answer questions about:";
    "- Services provided";
    "- Service areas";
    "- Hours";
    "- Typical pricing ranges";
    "- How booking and scheduling works";
    "";
    "You must:";
    "- Be concise and friendly.";
    "- Prefer short paragraphs and bullet points.";
    "- Always try to end by offering to take the caller's name, phone number, address, and a short description of the job so a human handyman can follow up.";
    "";
    "Here is structured knowledge about the business:";
    "";
    "SUMMARY:";
    summary;
    "";
    "SERVICE AREA:";
    area;
    "";
    "HOURS:";
    hours;
    "";
    "SERVICES:";
    services;
    "";
    "PRICING NOTES:";
    pricing;
    "";
    "BOOKING PROCESS:";
    booking;
    "";
    "EXAMPLE FAQ ANSWERS:";
    faqs;
    ""
  ].

(** The prompt that [askOpenAI] builds inline. *)
Definition buildSystemPrompt (kb : value) (_ : bool) : res string :=
  name <~ Earlier.text_of kb "business_name" ;;
  location <~ Earlier.text_of kb "location" ;;
  summary <~ text_or kb "summary" "" ;;
  area <~ Earlier.joined kb "service_area" ", " ;;
  hours <~ text_or kb "hours" "" ;;
  services <~ Earlier.joined kb "services" "; " ;;
  pricing <~ Earlier.joined kb "pricing_notes" "; " ;;
  booking <~ Earlier.joined kb "booking_process" "; " ;;
  faqs <~ Earlier.faqs_section kb ;;
  inr (trim (systemPrompt name location summary area hours services pricing booking faqs)).

Definition askOpenAI := Common.askOpenAIForChat buildSystemPrompt.

Definition on_message (g : globals) (api : request -> fetch_outcome) :=
  Earlier.on_message (askOpenAI g api) g.

End Minimal.

(** ** What the claims speak of *)

Module Markup.
Import JS Eff Common.

(** The entity that stands for a character in escaped text. *)
Definition entity (c : ascii) : string :=
  if Ascii.eqb c "&" then "&amp;"
  else if Ascii.eqb c "<" then "&lt;"
  else if Ascii.eqb c ">" then "&gt;"
  else String c EmptyString.

(** Escaping as the specification words it: every character is replaced, once,
    by its entity. *)
Fixpoint escape_each (s : string) : string :=
  match s with
  | EmptyString => EmptyString
  | String c r => entity c ++ escape_each r
  end.

(** Every ampersand of [s] opens one of the three entities: [s] holds no raw
    ampersand. *)
Fixpoint amps_open_entities (s : string) : bool :=
  match s with
  | EmptyString => true
  | String c r =>
      (if Ascii.eqb c "&"
       then startsWith "amp;" r || startsWith "lt;" r || startsWith "gt;" r
       else true)
      && amps_open_entities r
  end.

Definition hangup : string := "<Hangup/>".
Definition gather_open : string := "<Gather".
Definition gather_same_path : string :=
  "<Gather input=" ++ dq ++ "speech" ++ dq ++ " action=" ++ dq ++ "/twilio-voice" ++ dq.

(** The spoken-answer document around the text it speaks: everything up to the
    indentation inside the first [<Say>], and everything from the line feed
    that ends that line. *)
Definition answer_head : string :=
  "<?xml version=" ++ dq ++ "1.0" ++ dq ++ " encoding=" ++ dq ++ "UTF-8" ++ dq ++ "?>"
  ++ nl ++ "<Response>"
  ++ nl ++ "      <Say voice=" ++ dq ++ "woman" ++ dq ++ ">"
  ++ nl ++ "        ".

Definition answer_tail : string :=
  nl ++ "      </Say>"
  ++ nl ++ "      <Pause length=" ++ dq ++ "1" ++ dq ++ "/>"
  ++ nl ++ "      <Say>"
  ++ nl ++ "        A member of the Handyman of Fairfax team will follow up with you as soon as possible."
  ++ nl ++ "        Thank you for calling. Goodbye."
  ++ nl ++ "      </Say>"
  ++ nl ++ "      <Hangup/>"
  ++ nl ++ "    </Response>".

(** Did the computation throw? *)
Definition threw {A} (m : M A) : bool :=
  match fst m with
  | inl _ => true
  | inr _ => false
  end.

(** [req.body.From || ""] for a form body with these fields. *)
Definition caller (fields : list (string * value)) : value :=
  or_else (match lookup "From" fields with Some x => x | None => VUndef end) (VStr "").

(** The [Authorization] header the client sends. *)
Definition auth_header (g : globals) : string :=
  "Bearer " ++ match OPENAI_API_KEY g with Some k => k | None => "undefined" end.

Definition chat_request (g : globals) (prompt question : string) : request :=
  completion_request prompt question (3 # 10) (auth_header g).

Definition phone_request (g : globals) (prompt speech number : string) : request :=
  completion_request prompt (userContent speech number) (4 # 10) (auth_header g).

(** A knowledge record with every field of its documented type, and the
    value [JSON.parse] yields for it.  An entry of [faqs] holds its question
    under [q] and its answer under [a], the keys [buildSystemPrompt] reads. *)
Record KnowledgeRecord : Type := {
  business_name : string;
  location : string;
  summary : string;
  service_area : list string;
  hours : string;
  services : list string;
  pricing_notes : list string;
  booking_process : list string;
  faqs : list (string * string);
  contact_phone : string
}.

Definition texts (l : list string) : value := VArr (map VStr l).

Definition faq_value (f : string * string) : value :=
  VObj [("q", VStr (fst f)); ("a", VStr (snd f))].

Definition record_value (k : KnowledgeRecord) : value :=
  VObj [("business_name", VStr (business_name k));
        ("location", VStr (location k));
        ("summary", VStr (summary k));
        ("service_area", texts (service_area k));
        ("hours", VStr (hours k));
        ("services", texts (services k));
        ("pricing_notes", texts (pricing_notes k));
        ("booking_process", texts (booking_process k));
        ("faqs", VArr (map faq_value (faqs k)));
        ("contact_phone", VStr (contact_phone k))].

(** [s || d] on strings. *)
Definition text_else (s d : string) : string :=
  if String.eqb s "" then d else s.

Definition faq_lines (f : string * string) : string :=
  "Q: " ++ fst f ++ nl ++ "A: " ++ snd f.

End Markup.

(** ** Sample inputs *)

Module Sample.
Import JS Eff Common.

Definition configured : globals :=
  {| OPENAI_API_KEY := Some "sk-test"; knowledgeBase := Server.default_knowledge |}.

Definition unconfigured : globals :=
  {| OPENAI_API_KEY := None; knowledgeBase := Server.default_knowledge |}.

(** A completion with one choice. *)
Definition completion (content : value) : value :=
  VObj [("id", VStr "chatcmpl-1");
        ("choices",
         VArr [VObj [("index", VNum 0);
                     ("message", VObj [("role", VStr "assistant"); ("content", content)])]])].

Definition answers (content : value) : request -> fetch_outcome :=
  fun _ => Resolved {| ok := true; status := 200; text := "{...}";
                       json := Some (completion content) |}.

(** The API answers 200 with a completion that holds no choice. *)
Definition no_choice : response :=
  {| ok := true; status := 200; text := "{...}";
     json := Some (VObj [("id", VStr "chatcmpl-2"); ("choices", VArr [])]) |}.

(** The system prompt for the default record, [""] if building it throws. *)
Definition default_prompt (forPhone : bool) : string :=
  match Server.buildSystemPrompt Server.default_knowledge forPhone with
  | inr p => p
  | inl _ => ""
  end.

(** The API answers 500. *)
Definition server_error : response :=
  {| ok := false; status := 500; text := "upstream down"; json := None |}.

Definition fails : request -> fetch_outcome := fun _ => Resolved server_error.

(** The API answers 200 with a body that is not JSON. *)
Definition not_json : response :=
  {| ok := true; status := 200; text := "<html>Bad gateway</html>"; json := None |}.

(** The request never gets through. *)
Definition unreachable : request -> fetch_outcome :=
  fun _ => Rejected (TypeError "fetch failed").

Definition leaky_faucet : list (string * value) :=
  [("From", VStr "+15551234567"); ("SpeechResult", VStr "I have a leaky faucet")].

Definition springfield : value :=
  VObj [("question", VStr "Do you serve Springfield?")].

End Sample.

(** ** Measures used by the further properties *)

Module Reading.
Import JS Eff Common Markup.

(** How many times [c] occurs in [s]. *)
Fixpoint count_char (c : ascii) (s : string) : nat :=
  match s with
  | EmptyString => 0
  | String x r => (if Ascii.eqb x c then 1 else 0) + count_char c r
  end.

(** A character the three passes of [escapeForXml] replace. *)
Definition special (c : ascii) : bool :=
  Ascii.eqb c "&" || Ascii.eqb c "<" || Ascii.eqb c ">".

Fixpoint has_special (s : string) : bool :=
  match s with
  | EmptyString => false
  | String x r => special x || has_special r
  end.

(** The handler finished: it returned, or it threw. *)
Definition returned {A} (m : M A) : bool :=
  match fst m with
  | inr _ => true
  | inl _ => false
  end.

(** The shape of a finished chat handler: it returned after one frame, or it
    threw before any effect; never more than one request, no request without
    a credential, no HTTP document. *)
Definition chat_shape (g : globals) (run : M unit) : Prop :=
  ((returned run = true /\ length (frames_sent (snd run)) = 1%nat)
   \/ (threw run = true /\ snd run = []))
  /\ (length (requests_made (snd run)) <= 1)%nat
  /\ (truthy (key_value g) = false -> requests_made (snd run) = [])
  /\ documents_sent (snd run) = [].

(** The same for the voice webhook, with documents in the place of frames. *)
Definition voice_shape (g : globals) (run : M unit) : Prop :=
  ((returned run = true /\ length (documents_sent (snd run)) = 1%nat)
   \/ (threw run = true /\ snd run = []))
  /\ (length (requests_made (snd run)) <= 1)%nat
  /\ (truthy (key_value g) = false -> requests_made (snd run) = [])
  /\ frames_sent (snd run) = [].

(** An ASCII character that is no white space: it can be no part of any white
    space of [trim]. *)
Definition solid (c : ascii) : bool :=
  (nat_of_ascii c <? 128)%nat && negb (is_ws1 c).

(** A well-formed record to try the prompt builders on. *)
Definition fairfax : KnowledgeRecord :=
  {| business_name := "Handyman of Fairfax";
     location := "Fairfax, VA";
     summary := "Local handyman service.";
     service_area := ["Fairfax"; "Burke"];
     hours := "Monday to Saturday, 8 to 6";
     services := ["TV mounting"; "Leaky faucets"];
     pricing_notes := [];
     booking_process := ["Call us"; "We call back"];
     faqs := [("Do you paint?", "Small jobs only."); ("Weekends?", "Saturday.")];
     contact_phone := "(555) 555-5555" |}.

(** Does [s] open, or close, with such a character? *)
Definition first_solid (s : string) : bool :=
  match s with
  | EmptyString => false
  | String c _ => solid c
  end.

Fixpoint last_solid (s : string) : bool :=
  match s with
  | EmptyString => false
  | String c r =>
      match r with
      | EmptyString => solid c
      | String _ _ => last_solid r
      end
  end.

(** The system prompt without the line feeds [trim] strips: the template of
    [buildSystemPrompt] from its first to its last visible character. *)
Definition prompt_body (name location summary area hours services pricing booking
                        faqs : string) (forPhone : bool) : string :=
  unlines [
    "You are the intake and Q&A assistant for a local handyman service called "
      ++ dq ++ name ++ dq ++ " in " ++ location ++ ".";
    "";
    "You answer questions about:";
    "- Services provided";
    "- Service areas";
    "- Hours";
    "- Typical pricing ranges";
    "- How booking and scheduling works";
    "";
    "Business knowledge:";
    "SUMMARY:";
    summary;
    "";
    "SERVICE AREA:";
    area;
    "";
    "HOURS:";
    hours;
    "";
    "SERVICES:";
    services;
    "";
    "PRICING NOTES:";
    pricing;
    "";
    "BOOKING PROCESS:";
    booking;
    "";
    "FAQ EXAMPLES:";
    faqs;
    "";
    "Style guidelines:";
    "- Be friendly, clear, and professional.";
    "- Use short sentences.";
    "- Avoid jargon.";
    "- " ++ style_line forPhone;
    "- If the caller is outside the service area or asks for work you do not handle, say so politely and suggest they contact a different type of contractor.";
    "- Whenever appropriate, remind them that a handyman will follow up by phone or text to confirm details and scheduling."
  ].

(** What [knowledge-base.json] can hold of a record: every field is there with
    its documented type, or is not there at all. *)
Record SourceRecord : Type := {
  src_business_name : option string;
  src_location : option string;
  src_summary : option string;
  src_service_area : option (list string);
  src_hours : option string;
  src_services : option (list string);
  src_pricing_notes : option (list string);
  src_booking_process : option (list string);
  src_faqs : option (list (string * string));
  src_contact_phone : option string
}.

(** The member [k] of an object, when the source has it. *)
Definition entry (k : string) (o : option value) : list (string * value) :=
  match o with
  | Some v => [(k, v)]
  | None => []
  end.

Definition source_fields (s : SourceRecord) : list (string * value) :=
  (entry "business_name" (option_map VStr (src_business_name s))
   ++ entry "location" (option_map VStr (src_location s))
   ++ entry "summary" (option_map VStr (src_summary s))
   ++ entry "service_area" (option_map texts (src_service_area s))
   ++ entry "hours" (option_map VStr (src_hours s))
   ++ entry "services" (option_map texts (src_services s))
   ++ entry "pricing_notes" (option_map texts (src_pricing_notes s))
   ++ entry "booking_process" (option_map texts (src_booking_process s))
   ++ entry "faqs" (option_map (fun l => VArr (map faq_value l)) (src_faqs s))
   ++ entry "contact_phone" (option_map VStr (src_contact_phone s))
   ++ [])%list.

(** What [JSON.parse] yields for such a source. *)
Definition source_value (s : SourceRecord) : value := VObj (source_fields s).

(** The field, or [d] when the source lacks it. *)
Definition default {A} (d : A) (o : option A) : A :=
  match o with
  | Some x => x
  | None => d
  end.

(** A credential, and a [knowledge-base.json] that holds [null]. *)
Definition null_knowledge : globals :=
  {| OPENAI_API_KEY := Some "sk-test"; knowledgeBase := VNull |}.

(** A source that names the business and nothing else. *)
Definition name_only : SourceRecord :=
  {| src_business_name := Some "Handyman of Fairfax";
     src_location := None; src_summary := None; src_service_area := None;
     src_hours := None; src_services := None; src_pricing_notes := None;
     src_booking_process := None; src_faqs := None; src_contact_phone := None |}.

End Reading.

(** ** Properties *)

Import JS Eff Common Markup.

(** *** Strings *)

Lemma append_assoc (a b c : string) : (a ++ b) ++ c = a ++ (b ++ c).
Proof. induction a as [|x r IH]; simpl; [reflexivity | now rewrite IH]. Qed.

Lemma replace_all_app (c : ascii) (by_ a b : string) :
  replace_all c by_ (a ++ b) = replace_all c by_ a ++ replace_all c by_ b.
Proof.
  induction a as [|x r IH]; simpl; [reflexivity|].
  destruct (Ascii.eqb x c); simpl; rewrite IH; [now rewrite append_assoc | reflexivity].
Qed.

Lemma startsWith_app (p b : string) : startsWith p (p ++ b) = true.
Proof.
  induction p as [|x r IH]; simpl; [reflexivity|].
  now rewrite Ascii.eqb_refl, IH.
Qed.

Lemma includes_here (p s : string) : startsWith p s = true -> includes p s = true.
Proof. intros H. destruct s; simpl in *; rewrite H; reflexivity. Qed.

Lemma includes_app_r (p a b : string) :
  includes p b = true -> includes p (a ++ b) = true.
Proof.
  intros H. induction a as [|x r IH]; simpl; [exact H|].
  rewrite IH. apply orb_true_r.
Qed.

Lemma includes_middle (p a b : string) : includes p (a ++ p ++ b) = true.
Proof. apply includes_app_r, includes_here, startsWith_app. Qed.

(** What the two tests decide. *)
Lemma startsWith_spec (p s : string) :
  startsWith p s = true <-> exists b, s = p ++ b.
Proof.
  split.
  - revert s. induction p as [|x r IH]; intros s H.
    + exists s. reflexivity.
    + destruct s as [|y s']; [discriminate|].
      simpl in H. apply andb_true_iff in H as [Hxy Hr].
      apply Ascii.eqb_eq in Hxy. subst y.
      destruct (IH s' Hr) as [b ->]. exists b. reflexivity.
  - intros [b ->]. apply startsWith_app.
Qed.

Lemma includes_spec (p s : string) :
  includes p s = true <-> exists a b, s = a ++ p ++ b.
Proof.
  split.
  - induction s as [|c r IH]; intros H.
    + simpl in H. rewrite orb_false_r in H.
      apply startsWith_spec in H as [b Hb]. exists "", b. exact Hb.
    + cbn [includes] in H. apply orb_true_iff in H as [H | H].
      * apply startsWith_spec in H as [b Hb]. exists "", b. exact Hb.
      * destruct (IH H) as [a [b ->]]. exists (String c a), b. reflexivity.
  - intros [a [b ->]]. apply includes_middle.
Qed.

(** A pattern that opens with [c] cannot start inside text free of [c]. *)
Lemma includes_skip (c : ascii) (p a b : string) :
  has_char c a = false ->
  includes (String c p) (a ++ b) = includes (String c p) b.
Proof.
  induction a as [|x r IH]; simpl; [reflexivity|].
  intros H. apply orb_false_elim in H as [Hx Hr].
  rewrite Ascii.eqb_sym, Hx. simpl. destruct r; simpl in *; auto.
Qed.

(** *** [escapeForXml] *)

Lemma escape_text_each (s : string) : escape_text s = escape_each s.
Proof.
  unfold escape_text. induction s as [|c r IH]; [reflexivity|].
  cbn [replace_all escape_each]. unfold entity.
  destruct (Ascii.eqb c "&") eqn:Ea.
  - rewrite !replace_all_app. rewrite IH. reflexivity.
  - cbn [replace_all]. destruct (Ascii.eqb c "<") eqn:El.
    + rewrite replace_all_app, IH. reflexivity.
    + cbn [replace_all]. destruct (Ascii.eqb c ">") eqn:Eg.
      * rewrite IH. reflexivity.
      * rewrite IH. reflexivity.
Qed.

Lemma has_char_app (c : ascii) (a b : string) :
  has_char c (a ++ b) = has_char c a || has_char c b.
Proof.
  induction a as [|x r IH]; simpl; [reflexivity|].
  now rewrite IH, orb_assoc.
Qed.

Lemma entity_no_lt (c : ascii) : has_char "<" (entity c) = false.
Proof.
  unfold entity.
  destruct (Ascii.eqb c "&"); [reflexivity|].
  destruct (Ascii.eqb c "<") eqn:E; [reflexivity|].
  destruct (Ascii.eqb c ">"); [reflexivity|].
  simpl. now rewrite E.
Qed.

Lemma entity_no_gt (c : ascii) : has_char ">" (entity c) = false.
Proof.
  unfold entity.
  destruct (Ascii.eqb c "&"); [reflexivity|].
  destruct (Ascii.eqb c "<"); [reflexivity|].
  destruct (Ascii.eqb c ">") eqn:E; [reflexivity|].
  simpl. now rewrite E.
Qed.

Lemma escape_each_no_lt (s : string) : has_char "<" (escape_each s) = false.
Proof.
  induction s as [|c r IH]; [reflexivity|].
  simpl. now rewrite has_char_app, entity_no_lt, IH.
Qed.

Lemma escape_each_no_gt (s : string) : has_char ">" (escape_each s) = false.
Proof.
  induction s as [|c r IH]; [reflexivity|].
  simpl. now rewrite has_char_app, entity_no_gt, IH.
Qed.

Lemma escape_each_amps (s : string) : amps_open_entities (escape_each s) = true.
Proof.
  induction s as [|c r IH]; [reflexivity|].
  cbn [escape_each]. unfold entity.
  destruct (Ascii.eqb c "&") eqn:Ea; [simpl; exact IH|].
  destruct (Ascii.eqb c "<"); [simpl; exact IH|].
  destruct (Ascii.eqb c ">"); [simpl; exact IH|].
  simpl. now rewrite Ea, IH.
Qed.

(** C10: for every input string, the output of [escapeForXml] holds no raw
    [<] and no raw [>]; as the ampersand is replaced first, the three passes
    amount to replacing every character once by its entity, so no entity is
    escaped twice. *)
Theorem escapeForXml_no_angle_brackets (s : string) :
  exists out,
    escapeForXml (VStr s) = inr out
    /\ has_char "<" out = false
    /\ has_char ">" out = false
    /\ out = escape_each s.
Proof.
  exists (escape_text s). split; [reflexivity|].
  rewrite escape_text_each.
  repeat split; [apply escape_each_no_lt | apply escape_each_no_gt].
Qed.

(** *** The trace monad *)

Local Open Scope js_scope.

Lemma bind_ret_l {A B} (a : A) (k : A -> M B) : bind (lift (inr a)) k = k a.
Proof. unfold bind, lift. destruct (k a) as [r t]. reflexivity. Qed.

Lemma or_else_text (s : string) :
  call_trim (or_else (VStr s) (VStr "")) = inr (trim s).
Proof.
  unfold or_else. simpl. destruct (String.eqb s "") eqn:E; simpl; [|reflexivity].
  apply String.eqb_eq in E. now subst.
Qed.

Lemma truthy_text (s : string) : s <> "" -> truthy (VStr s) = true.
Proof.
  intros H. simpl. destruct (String.eqb s "") eqn:E; [|reflexivity].
  apply String.eqb_eq in E. contradiction.
Qed.

(** The handler ran to its end: name what it sent and its trace. *)
Ltac ran := eexists; eexists; (split; [reflexivity|]).

Lemma documents_sent_app (a b : list event) :
  documents_sent (a ++ b) = (documents_sent a ++ documents_sent b)%list.
Proof. apply flat_map_app. Qed.

Lemma frames_sent_app (a b : list event) :
  frames_sent (a ++ b) = (frames_sent a ++ frames_sent b)%list.
Proof. apply flat_map_app. Qed.

(** *** The completion client *)

Section Client.

Variable build : value -> bool -> res string.
Variable g : globals.
Variable api : request -> fetch_outcome.

(** The client sends nothing on the socket or over HTTP, and asks the
    completion API at most once. *)
Lemma askOpenAIForChat_trace (question : string) (kb : value) :
  let t := snd (Common.askOpenAIForChat build g api question kb) in
  frames_sent t = [] /\ documents_sent t = [] /\ (length (requests_made t) <= 1)%nat.
Proof.
  unfold Common.askOpenAIForChat.
  destruct (build kb false) as [e|prompt]; [simpl; auto|]. rewrite bind_ret_l.
  destruct (bearer g) as [e|auth]; [simpl; auto|]. rewrite bind_ret_l.
  unfold do_fetch.
  destruct (api _) as [e|r]; [simpl; auto|].
  unfold bind, lift. simpl. auto.
Qed.

Lemma askOpenAIForPhone_trace (speech : string) (kb from : value) :
  let t := snd (Common.askOpenAIForPhone build g api speech kb from) in
  frames_sent t = [] /\ documents_sent t = [] /\ (length (requests_made t) <= 1)%nat.
Proof.
  unfold Common.askOpenAIForPhone.
  destruct (build kb true) as [e|prompt]; [simpl; auto|]. rewrite bind_ret_l.
  destruct (ToString from) as [e|number]; [simpl; auto|]. rewrite bind_ret_l.
  destruct (bearer g) as [e|auth]; [simpl; auto|]. rewrite bind_ret_l.
  unfold do_fetch.
  destruct (api _) as [e|r]; [simpl; auto|].
  unfold bind, lift. simpl. auto.
Qed.

End Client.

(** *** The voice webhook, final revision *)

Lemma includes_cons (p : string) (c : ascii) (s : string) :
  includes p s = true -> includes p (String c s) = true.
Proof. intros H. simpl. rewrite H. apply orb_true_r. Qed.

Lemma success_document_hangs_up (say : string) :
  includes hangup (twiml_document (responseTwiml say)) = true.
Proof.
  unfold twiml_document, responseTwiml, unlines, dq, nl.
  cbn [String.concat append].
  repeat apply includes_cons.
  rewrite append_assoc. apply includes_app_r. vm_compute. reflexivity.
Qed.

Lemma success_document_no_gather (say : string) :
  has_char "<" say = false ->
  includes gather_open (twiml_document (responseTwiml say)) = false.
Proof.
  intros H.
  unfold twiml_document, responseTwiml, unlines, dq, nl, gather_open.
  cbn [String.concat append].
  cbn [includes startsWith Ascii.eqb Bool.eqb andb orb].
  rewrite append_assoc, includes_skip by exact H.
  vm_compute. reflexivity.
Qed.

Lemma fallback_document_hangs_up (phone : string) :
  includes hangup (twiml_document (Server.fallback phone)) = true.
Proof.
  unfold twiml_document, Server.fallback, unlines, dq, nl.
  cbn [String.concat append].
  repeat apply includes_cons.
  rewrite append_assoc. apply includes_app_r. vm_compute. reflexivity.
Qed.

Lemma fallback_document_phone (phone : string) :
  includes phone (twiml_document (Server.fallback phone)) = true.
Proof.
  unfold twiml_document, Server.fallback, unlines, dq, nl.
  cbn [String.concat append].
  repeat apply includes_cons.
  rewrite !append_assoc. apply includes_here, startsWith_app.
Qed.

(** The [try]/[catch] of the voice webhook, by the outcome of the completion
    client. *)
Lemma try_answer (m : M string) :
  try_catch
    (answer <- m ;;
     say <- lift (escapeForXml (VStr answer)) ;;
     twiml (responseTwiml say))
    (fun _ => twiml errorTwiml)
  = match m with
    | (inr answer, t) =>
        (inr tt,
         (t ++ [HttpSend "text/xml" (twiml_document (responseTwiml (escape_text answer)))])%list)
    | (inl _, t) =>
        (inr tt, (t ++ [HttpSend "text/xml" (twiml_document errorTwiml)])%list)
    end.
Proof. destruct m as [[e|answer] t]; reflexivity. Qed.

Section Voice.

Variable g : globals.
Variable api : request -> fetch_outcome.
Variable fields : list (string * value).

(** GREETING: no speech, or blank speech. *)
Lemma twilio_voice_greeting :
  lookup "SpeechResult" fields = None
  \/ (exists s, lookup "SpeechResult" fields = Some (VStr s) /\ trim s = "") ->
  Server.twilio_voice g api (VObj fields) = twiml Server.gatherTwiml.
Proof.
  intros H. unfold Server.twilio_voice. cbn [get_field]. rewrite bind_ret_l.
  destruct H as [H | [s [H Hs]]]; rewrite H.
  - rewrite bind_ret_l. reflexivity.
  - rewrite bind_ret_l, or_else_text, bind_ret_l, Hs. reflexivity.
Qed.

Variable speech : string.
Hypothesis Hspeech : lookup "SpeechResult" fields = Some (VStr speech).
Hypothesis Hsaid : trim speech <> "".

(** ANSWER without a credential. *)
Lemma twilio_voice_unconfigured :
  truthy (key_value g) = false ->
  Server.twilio_voice g api (VObj fields) =
    (phone <- lift (get_field (knowledgeBase g) "contact_phone") ;;
     p <- lift (escapeForXml (or_else phone (VStr "our regular number"))) ;;
     twiml (Server.fallback p)).
Proof.
  intros Hk. unfold Server.twilio_voice. cbn [get_field]. rewrite bind_ret_l.
  rewrite Hspeech, bind_ret_l, or_else_text, bind_ret_l.
  rewrite (truthy_text _ Hsaid), Hk. reflexivity.
Qed.

(** ANSWER with a credential. *)
Lemma twilio_voice_configured :
  truthy (key_value g) = true ->
  Server.twilio_voice g api (VObj fields) =
    match Server.askOpenAIForPhone g api (trim speech) (knowledgeBase g) (caller fields) with
    | (inr answer, t) =>
        (inr tt,
         (t ++ [HttpSend "text/xml" (twiml_document (responseTwiml (escape_text answer)))])%list)
    | (inl _, t) =>
        (inr tt, (t ++ [HttpSend "text/xml" (twiml_document errorTwiml)])%list)
    end.
Proof.
  intros Hk. unfold Server.twilio_voice. cbn [get_field]. rewrite bind_ret_l.
  rewrite Hspeech, bind_ret_l, or_else_text, bind_ret_l.
  rewrite (truthy_text _ Hsaid), Hk. cbn [negb].
  apply try_answer.
Qed.

End Voice.

(** C3: a voice request whose [SpeechResult] is absent, or blank once trimmed,
    is answered by one document holding a speech-gather directive whose action
    is the webhook's own path, [/twilio-voice]; the completion API is not
    called, with or without a credential. *)
Theorem voice_greeting_gathers (g : globals) (api : request -> fetch_outcome)
                               (fields : list (string * value)) :
  lookup "SpeechResult" fields = None
  \/ (exists s, lookup "SpeechResult" fields = Some (VStr s) /\ trim s = "") ->
  exists doc t,
    Server.twilio_voice g api (VObj fields) = (inr tt, t)
    /\ documents_sent t = [doc]
    /\ includes gather_same_path doc = true
    /\ requests_made t = [].
Proof.
  intros H. rewrite (twilio_voice_greeting g api fields H).
  ran.
  split; [reflexivity|]. split; vm_compute; reflexivity.
Qed.

Lemma voice_greeting_gathers_witness :
  exists doc t,
    Server.twilio_voice Sample.configured Sample.unreachable (VObj [("From", VStr "+15551234567")])
      = (inr tt, t)
    /\ documents_sent t = [doc]
    /\ includes gather_same_path doc = true
    /\ requests_made t = [].
Proof.
  apply (voice_greeting_gathers Sample.configured Sample.unreachable
           [("From", VStr "+15551234567")]).
  left. reflexivity.
Defined.

(** C2: a voice request whose [SpeechResult] is not blank, with a credential
    configured, is answered by one document that holds [<Hangup/>] and no
    [<Gather]: the spoken answer when the completion client returns, the
    apology when it throws. *)
Theorem voice_answer_ends_call (g : globals) (api : request -> fetch_outcome)
                               (fields : list (string * value)) (speech : string) :
  lookup "SpeechResult" fields = Some (VStr speech) ->
  trim speech <> "" ->
  truthy (key_value g) = true ->
  let ask := Server.askOpenAIForPhone g api (trim speech) (knowledgeBase g) (caller fields) in
  exists doc t,
    Server.twilio_voice g api (VObj fields) = (inr tt, t)
    /\ documents_sent t = [doc]
    /\ includes hangup doc = true
    /\ includes gather_open doc = false
    /\ ((exists answer, fst ask = inr answer
                        /\ doc = twiml_document (responseTwiml (escape_text answer)))
        \/ (threw ask = true /\ doc = twiml_document errorTwiml)).
Proof.
  intros Hs Hne Hk ask.
  rewrite (twilio_voice_configured g api fields speech Hs Hne Hk).
  pose proof (askOpenAIForPhone_trace Server.buildSystemPrompt g api (trim speech)
                (knowledgeBase g) (caller fields)) as [_ [Hd _]].
  fold Server.askOpenAIForPhone in Hd. fold ask in Hd. fold ask.
  unfold threw. destruct ask as [[e|answer] t]; simpl in Hd |- *;
    ran;
    rewrite documents_sent_app, Hd; (split; [reflexivity|]).
  - split; [vm_compute; reflexivity|]. split; [vm_compute; reflexivity|].
    right. split; reflexivity.
  - split; [apply success_document_hangs_up|].
    split; [apply success_document_no_gather; rewrite escape_text_each;
            apply escape_each_no_lt|].
    left. exists answer. split; reflexivity.
Qed.

Lemma voice_answer_ends_call_witness :
  let ask := Server.askOpenAIForPhone Sample.configured Sample.fails
               (trim "I have a leaky faucet") (knowledgeBase Sample.configured)
               (caller Sample.leaky_faucet) in
  exists doc t,
    Server.twilio_voice Sample.configured Sample.fails (VObj Sample.leaky_faucet) = (inr tt, t)
    /\ documents_sent t = [doc]
    /\ includes hangup doc = true
    /\ includes gather_open doc = false
    /\ ((exists answer, fst ask = inr answer
                        /\ doc = twiml_document (responseTwiml (escape_text answer)))
        \/ (threw ask = true /\ doc = twiml_document errorTwiml)).
Proof.
  apply (voice_answer_ends_call Sample.configured Sample.fails Sample.leaky_faucet
           "I have a leaky faucet").
  - reflexivity.
  - vm_compute. discriminate.
  - reflexivity.
Defined.

Lemma success_document_shape (say : string) :
  twiml_document (responseTwiml say) = answer_head ++ say ++ answer_tail.
Proof.
  unfold twiml_document, responseTwiml, answer_head, answer_tail, unlines, dq, nl.
  cbn [String.concat append]. rewrite !append_assoc. reflexivity.
Qed.

(** C4: the answer spoken by the voice webhook is embedded escaped: the
    document sent is the fixed markup up to the inside of its first [<Say>],
    then the escaped answer, then the fixed markup that closes that element and
    the call.  In the escaped answer every [&], [<], [>] of the answer is
    replaced by [&amp;], [&lt;], [&gt;], and it holds no raw [<], no raw [>]
    and no ampersand that does not open one of these entities. *)
Theorem voice_answer_is_escaped (g : globals) (api : request -> fetch_outcome)
                                (fields : list (string * value)) (speech answer : string)
                                (t : list event) :
  lookup "SpeechResult" fields = Some (VStr speech) ->
  trim speech <> "" ->
  truthy (key_value g) = true ->
  Server.askOpenAIForPhone g api (trim speech) (knowledgeBase g) (caller fields)
    = (inr answer, t) ->
  exists say,
    escapeForXml (VStr answer) = inr say
    /\ Server.twilio_voice g api (VObj fields)
       = (inr tt, (t ++ [HttpSend "text/xml" (answer_head ++ say ++ answer_tail)])%list)
    /\ documents_sent (t ++ [HttpSend "text/xml" (answer_head ++ say ++ answer_tail)])
       = [answer_head ++ say ++ answer_tail]
    /\ includes say (answer_head ++ say ++ answer_tail) = true
    /\ say = escape_each answer
    /\ has_char "<" say = false
    /\ has_char ">" say = false
    /\ amps_open_entities say = true.
Proof.
  intros Hs Hne Hk Hask. exists (escape_text answer).
  split; [reflexivity|].
  split; [rewrite (twilio_voice_configured g api fields speech Hs Hne Hk), Hask,
            success_document_shape; reflexivity|].
  split.
  { pose proof (askOpenAIForPhone_trace Server.buildSystemPrompt g api (trim speech)
                  (knowledgeBase g) (caller fields)) as [_ [Hd _]].
    fold Server.askOpenAIForPhone in Hd. rewrite Hask in Hd. cbn [snd] in Hd.
    rewrite documents_sent_app, Hd. reflexivity. }
  split; [apply includes_middle|].
  rewrite escape_text_each.
  repeat split; [apply escape_each_no_lt | apply escape_each_no_gt | apply escape_each_amps].
Qed.

Lemma voice_answer_is_escaped_witness :
  let api := Sample.answers (VStr " We fix doors & windows <same day>. ") in
  let ask := Server.askOpenAIForPhone Sample.configured api (trim "I have a leaky faucet")
               (knowledgeBase Sample.configured) (caller Sample.leaky_faucet) in
  exists say,
    escapeForXml (VStr "We fix doors & windows <same day>.") = inr say
    /\ Server.twilio_voice Sample.configured api (VObj Sample.leaky_faucet)
       = (inr tt,
          (snd ask ++ [HttpSend "text/xml" (answer_head ++ say ++ answer_tail)])%list)
    /\ documents_sent
         (snd ask ++ [HttpSend "text/xml" (answer_head ++ say ++ answer_tail)])
       = [answer_head ++ say ++ answer_tail]
    /\ includes say (answer_head ++ say ++ answer_tail) = true
    /\ say = escape_each "We fix doors & windows <same day>."
    /\ has_char "<" say = false
    /\ has_char ">" say = false
    /\ amps_open_entities say = true.
Proof.
  intros api ask.
  apply (voice_answer_is_escaped Sample.configured api Sample.leaky_faucet
           "I have a leaky faucet" "We fix doors & windows <same day>." (snd ask)).
  - reflexivity.
  - vm_compute. discriminate.
  - reflexivity.
  - vm_compute. reflexivity.
Defined.

(** X19: the final revision without a credential: a voice request whose
    [SpeechResult] is not blank is answered by one document that holds the
    contact phone of the knowledge record, escaped, and [<Hangup/>]; the
    completion API is not called. *)
Theorem voice_unconfigured_hangs_up (g : globals) (api : request -> fetch_outcome)
                                    (fields kb : list (string * value))
                                    (speech phone : string) :
  lookup "SpeechResult" fields = Some (VStr speech) ->
  trim speech <> "" ->
  truthy (key_value g) = false ->
  knowledgeBase g = VObj kb ->
  lookup "contact_phone" kb = Some (VStr phone) ->
  phone <> "" ->
  exists doc t,
    Server.twilio_voice g api (VObj fields) = (inr tt, t)
    /\ documents_sent t = [doc]
    /\ includes (escape_text phone) doc = true
    /\ includes hangup doc = true
    /\ requests_made t = [].
Proof.
  intros Hs Hne Hk Hkb Hp Hset.
  rewrite (twilio_voice_unconfigured g api fields speech Hs Hne Hk), Hkb.
  cbn [get_field]. rewrite Hp, bind_ret_l.
  unfold or_else. rewrite (truthy_text _ Hset).
  cbn [escapeForXml ToString rbind]. rewrite bind_ret_l.
  ran. split; [reflexivity|].
  split; [apply fallback_document_phone|].
  split; [apply fallback_document_hangs_up | reflexivity].
Qed.

Lemma voice_unconfigured_hangs_up_witness :
  exists doc t,
    Server.twilio_voice Sample.unconfigured Sample.unreachable (VObj Sample.leaky_faucet)
      = (inr tt, t)
    /\ documents_sent t = [doc]
    /\ includes (escape_text "(555) 555-5555") doc = true
    /\ includes hangup doc = true
    /\ requests_made t = [].
Proof.
  apply (voice_unconfigured_hangs_up Sample.unconfigured Sample.unreachable
           Sample.leaky_faucet
           (match Server.default_knowledge with VObj kb => kb | _ => [] end)
           "I have a leaky faucet" "(555) 555-5555").
  - reflexivity.
  - vm_compute. discriminate.
  - reflexivity.
  - reflexivity.
  - reflexivity.
  - discriminate.
Defined.

(** C5: in the first Twilio revision the same request, without a credential,
    is answered by a document that holds the contact phone but no [<Hangup/>]
    element, unlike its two sibling branches and unlike the final revision.
    The completion API is not called. *)
Theorem voice_unconfigured_v1_lacks_hangup (api : request -> fetch_outcome) :
  exists doc,
    TwilioV1.twilio_voice Sample.unconfigured api (VObj Sample.leaky_faucet)
      = (inr tt, [HttpSend "text/xml" doc])
    /\ includes "(555) 555-5555" doc = true
    /\ includes hangup doc = false
    /\ includes hangup (twiml_document errorTwiml) = true
    /\ includes hangup (twiml_document (Server.fallback "(555) 555-5555")) = true.
Proof.
  eexists. split; [vm_compute; reflexivity|].
  repeat split; vm_compute; reflexivity.
Qed.

(** In the first Twilio revision the fallback document never holds the
    element, whatever the contact phone. *)
Lemma v1_fallback_document_lacks_hangup (phone : string) :
  has_char "<" phone = false ->
  includes hangup (twiml_document (TwilioV1.fallback phone)) = false.
Proof.
  intros H.
  unfold twiml_document, TwilioV1.fallback, unlines, dq, nl, hangup.
  cbn [String.concat append].
  cbn [includes startsWith Ascii.eqb Bool.eqb andb orb].
  rewrite !append_assoc, includes_skip by exact H.
  vm_compute. reflexivity.
Qed.

(** *** The prompt builder on a well-formed record *)

Lemma join_texts (sep : string) (l : list string) :
  call_join (texts l) sep = inr (String.concat sep l).
Proof.
  unfold texts, call_join.
  induction l as [|x [|y r] IH]; [reflexivity | reflexivity |].
  cbn [map collect elem_text ToString] in IH |- *. rewrite IH. reflexivity.
Qed.

Lemma map_faqs_values (l : list (string * string)) :
  map_faqs (map faq_value l) = inr (map faq_lines l).
Proof.
  induction l as [|f r IH]; [reflexivity|].
  cbn [map map_faqs]. rewrite IH. reflexivity.
Qed.

Lemma text_or_text (s d : string) : ToString (or_else (VStr s) (VStr d)) = inr (text_else s d).
Proof. unfold or_else, text_else. simpl. destruct (String.eqb s ""); reflexivity. Qed.

(** [buildSystemPrompt] does not throw on a well-formed record, and fills the
    template with the fields, the lists joined: it is a function of the record
    and the channel. *)
Lemma buildSystemPrompt_record (k : KnowledgeRecord) (forPhone : bool) :
  Server.buildSystemPrompt (record_value k) forPhone
  = inr (trim (prompt_text
                 (text_else (business_name k) "Handyman of Fairfax")
                 (text_else (location k) "Fairfax, VA")
                 (text_else (summary k) "")
                 (String.concat ", " (service_area k))
                 (text_else (hours k) "")
                 (String.concat "; " (services k))
                 (String.concat "; " (pricing_notes k))
                 (String.concat "; " (booking_process k))
                 (String.concat (nl ++ nl) (map faq_lines (faqs k)))
                 forPhone)).
Proof.
  unfold Server.buildSystemPrompt, text_or, Server.joined, Server.faqs_section,
    record_value.
  cbn [get_field lookup String.eqb Ascii.eqb Bool.eqb rbind].
  rewrite !text_or_text. cbn [rbind].
  change (VArr (map VStr ?l)) with (texts l).
  cbn [isArray texts]. fold (texts (service_area k)) (texts (services k))
    (texts (pricing_notes k)) (texts (booking_process k)).
  rewrite !join_texts. cbn [rbind faqs_text].
  rewrite map_faqs_values. reflexivity.
Qed.

(** *** The completion client, by the response it gets *)

Lemma bearer_header (g : globals) : bearer g = inr (auth_header g).
Proof. unfold bearer, auth_header, key_value. destruct (OPENAI_API_KEY g); reflexivity. Qed.

Lemma askOpenAIForChat_resolved (build : value -> bool -> res string) (g : globals)
      (api : request -> fetch_outcome) (question : string) (kb : value)
      (prompt : string) (r : response) :
  build kb false = inr prompt ->
  api (chat_request g prompt question) = Resolved r ->
  Common.askOpenAIForChat build g api question kb
  = (read_answer chat_fallback r, [Fetch (chat_request g prompt question)]).
Proof.
  intros Hb Ha. unfold Common.askOpenAIForChat.
  rewrite Hb, bind_ret_l, bearer_header, bind_ret_l.
  unfold do_fetch. fold (chat_request g prompt question). rewrite Ha.
  unfold bind, lift. reflexivity.
Qed.

Lemma askOpenAIForPhone_resolved (build : value -> bool -> res string) (g : globals)
      (api : request -> fetch_outcome) (speech : string) (kb from : value)
      (prompt number : string) (r : response) :
  build kb true = inr prompt ->
  ToString from = inr number ->
  api (phone_request g prompt speech number) = Resolved r ->
  Common.askOpenAIForPhone build g api speech kb from
  = (read_answer phone_fallback r, [Fetch (phone_request g prompt speech number)]).
Proof.
  intros Hb Hn Ha. unfold Common.askOpenAIForPhone.
  rewrite Hb, bind_ret_l, Hn, bind_ret_l, bearer_header, bind_ret_l.
  unfold do_fetch. fold (phone_request g prompt speech number). rewrite Ha.
  unfold bind, lift. reflexivity.
Qed.

Lemma read_answer_failure (fallback : string) (r : response) :
  ok r = false ->
  read_answer fallback r
  = inl (JsError ("OpenAI API error " ++ Z_to_string (status r) ++ ": " ++ text r)).
Proof. intros H. unfold read_answer. rewrite H. reflexivity. Qed.

Lemma read_answer_falsy (fallback : string) (r : response) (j content : value) :
  ok r = true ->
  json r = Some j ->
  first_content j = inr content ->
  truthy content = false ->
  read_answer fallback r = inr (trim fallback).
Proof.
  intros Hok Hj Hc Ht. unfold read_answer, response_json.
  rewrite Hok, Hj. cbn [negb rbind]. rewrite Hc. cbn [rbind].
  unfold or_else. rewrite Ht. reflexivity.
Qed.

Lemma chat_fallback_trimmed : trim chat_fallback = chat_fallback.
Proof. vm_compute. reflexivity. Qed.

Lemma phone_fallback_trimmed : trim phone_fallback = phone_fallback.
Proof. vm_compute. reflexivity. Qed.

(** The chain [json.choices?.[0]?.message?.content] on a completion whose first
    choice holds a message with a content. *)
Lemma first_content_present (jf cf mf : list (string * value)) (rest : list value)
                            (content : value) :
  lookup "choices" jf = Some (VArr (VObj cf :: rest)) ->
  lookup "message" cf = Some (VObj mf) ->
  lookup "content" mf = Some content ->
  first_content (VObj jf) = inr content.
Proof.
  intros Hc Hm Hx. unfold first_content. cbn [get_field rbind]. rewrite Hc.
  cbn [opt_first rbind opt_field nullish get_field]. rewrite Hm.
  cbn [opt_field nullish get_field]. rewrite Hx. reflexivity.
Qed.

(** The same chain where the completion stops short of a content: no
    [choices], no first choice, no [message] in it, or no [content] in the
    message. *)
Lemma first_content_absent (jf : list (string * value)) :
  lookup "choices" jf = None
  \/ lookup "choices" jf = Some (VArr [])
  \/ (exists cf rest,
        lookup "choices" jf = Some (VArr (VObj cf :: rest))
        /\ (lookup "message" cf = None
            \/ exists mf, lookup "message" cf = Some (VObj mf)
                          /\ lookup "content" mf = None)) ->
  first_content (VObj jf) = inr VUndef.
Proof.
  unfold first_content. cbn [get_field rbind].
  intros [H | [H | [cf [rest [H [Hm | [mf [Hm Hx]]]]]]]]; rewrite H;
    cbn [opt_first rbind opt_field nullish get_field]; try reflexivity;
    rewrite Hm; cbn [opt_field nullish get_field]; [reflexivity|].
  rewrite Hx. reflexivity.
Qed.

(** C6, as the code has it: the completion client raises whenever the API
    answers with a non-success status, and the error then carries the status
    and the raw body; when the status is a success and the parsed body lacks
    the first choice's message content, the client returns its fixed fallback
    sentence. *)
Theorem completion_client_outcomes
        (build : value -> bool -> res string) (g : globals)
        (api : request -> fetch_outcome) (kb from : value)
        (question speech prompt voice number : string) (r : response) :
  build kb false = inr prompt ->
  build kb true = inr voice ->
  ToString from = inr number ->
  api (chat_request g prompt question) = Resolved r ->
  api (phone_request g voice speech number) = Resolved r ->
  let chat := Common.askOpenAIForChat build g api question kb in
  let phone := Common.askOpenAIForPhone build g api speech kb from in
  let error :=
    JsError ("OpenAI API error " ++ Z_to_string (status r) ++ ": " ++ text r) in
  (ok r = false -> fst chat = inl error /\ fst phone = inl error)
  /\ (ok r = true ->
      forall j, json r = Some j -> first_content j = inr VUndef ->
      fst chat = inr chat_fallback /\ fst phone = inr phone_fallback).
Proof.
  intros Hb Hv Hn Hc Hp chat phone error. subst chat phone.
  rewrite (askOpenAIForChat_resolved build g api question kb prompt r Hb Hc).
  rewrite (askOpenAIForPhone_resolved build g api speech kb from voice number r Hv Hn Hp).
  cbn [fst]. split.
  - intros Hok. rewrite !(read_answer_failure _ r Hok). split; reflexivity.
  - intros Hok j Hj Hl.
    rewrite (read_answer_falsy chat_fallback r j VUndef Hok Hj Hl eq_refl).
    rewrite (read_answer_falsy phone_fallback r j VUndef Hok Hj Hl eq_refl).
    rewrite chat_fallback_trimmed, phone_fallback_trimmed. split; reflexivity.
Qed.

(** C9: when the API answers with a success status and the first choice's
    message content is present but is the empty string, the completion client
    returns its fixed fallback sentence, which is not empty. *)
Theorem empty_content_gives_fallback
        (build : value -> bool -> res string) (g : globals)
        (api : request -> fetch_outcome) (kb from : value)
        (question speech prompt voice number : string) (r : response)
        (jf cf mf : list (string * value)) (rest : list value) :
  build kb false = inr prompt ->
  build kb true = inr voice ->
  ToString from = inr number ->
  api (chat_request g prompt question) = Resolved r ->
  api (phone_request g voice speech number) = Resolved r ->
  ok r = true ->
  json r = Some (VObj jf) ->
  lookup "choices" jf = Some (VArr (VObj cf :: rest)) ->
  lookup "message" cf = Some (VObj mf) ->
  lookup "content" mf = Some (VStr "") ->
  fst (Common.askOpenAIForChat build g api question kb) = inr chat_fallback
  /\ fst (Common.askOpenAIForPhone build g api speech kb from) = inr phone_fallback
  /\ chat_fallback <> ""
  /\ phone_fallback <> "".
Proof.
  intros Hb Hv Hn Hc Hp Hok Hj Hch Hm Hx.
  pose proof (first_content_present jf cf mf rest (VStr "") Hch Hm Hx) as Hfc.
  rewrite (askOpenAIForChat_resolved build g api question kb prompt r Hb Hc).
  rewrite (askOpenAIForPhone_resolved build g api speech kb from voice number r Hv Hn Hp).
  cbn [fst].
  rewrite (read_answer_falsy chat_fallback r _ _ Hok Hj Hfc eq_refl).
  rewrite (read_answer_falsy phone_fallback r _ _ Hok Hj Hfc eq_refl).
  rewrite chat_fallback_trimmed, phone_fallback_trimmed.
  repeat split; discriminate.
Qed.

Lemma completion_client_outcomes_witness :
  let error := JsError "OpenAI API error 500: upstream down" in
  (fst (Server.askOpenAIForChat Sample.configured Sample.fails
          "Do you serve Springfield?" Server.default_knowledge) = inl error
   /\ fst (Server.askOpenAIForPhone Sample.configured Sample.fails
             "I have a leaky faucet" Server.default_knowledge (VStr "+15551234567"))
      = inl error)
  /\ (fst (Server.askOpenAIForChat Sample.configured (fun _ => Resolved Sample.no_choice)
             "Do you serve Springfield?" Server.default_knowledge) = inr chat_fallback
      /\ fst (Server.askOpenAIForPhone Sample.configured (fun _ => Resolved Sample.no_choice)
                "I have a leaky faucet" Server.default_knowledge (VStr "+15551234567"))
         = inr phone_fallback).
Proof.
  split.
  - apply (completion_client_outcomes Server.buildSystemPrompt Sample.configured
             Sample.fails Server.default_knowledge (VStr "+15551234567")
             "Do you serve Springfield?" "I have a leaky faucet"
             (Sample.default_prompt false) (Sample.default_prompt true)
             "+15551234567" Sample.server_error);
      try reflexivity; vm_compute; reflexivity.
  - apply (completion_client_outcomes Server.buildSystemPrompt Sample.configured
             (fun _ => Resolved Sample.no_choice) Server.default_knowledge
             (VStr "+15551234567")
             "Do you serve Springfield?" "I have a leaky faucet"
             (Sample.default_prompt false) (Sample.default_prompt true)
             "+15551234567" Sample.no_choice)
      with (j := VObj [("id", VStr "chatcmpl-2"); ("choices", VArr [])]);
      try reflexivity; vm_compute; reflexivity.
Defined.

(** C6, as the claim words it, fails: the client also raises when the status is
    a success but the body is not JSON, and when the request never gets a
    response at all. *)
Lemma completion_client_raises_without_failure_status :
  ok Sample.not_json = true
  /\ threw (Server.askOpenAIForChat Sample.configured (fun _ => Resolved Sample.not_json)
              "Do you serve Springfield?" Server.default_knowledge) = true
  /\ threw (Server.askOpenAIForPhone Sample.configured (fun _ => Resolved Sample.not_json)
              "I have a leaky faucet" Server.default_knowledge (VStr "+15551234567")) = true
  /\ threw (Server.askOpenAIForChat Sample.configured Sample.unreachable
              "Do you serve Springfield?" Server.default_knowledge) = true.
Proof. repeat split; vm_compute; reflexivity. Qed.

Lemma empty_content_gives_fallback_witness :
  fst (Server.askOpenAIForChat Sample.configured (Sample.answers (VStr ""))
         "Do you serve Springfield?" Server.default_knowledge) = inr chat_fallback
  /\ fst (Server.askOpenAIForPhone Sample.configured (Sample.answers (VStr ""))
            "I have a leaky faucet" Server.default_knowledge (VStr "+15551234567"))
     = inr phone_fallback
  /\ chat_fallback <> ""
  /\ phone_fallback <> "".
Proof.
  apply (empty_content_gives_fallback Server.buildSystemPrompt Sample.configured
           (Sample.answers (VStr "")) Server.default_knowledge (VStr "+15551234567")
           "Do you serve Springfield?" "I have a leaky faucet"
           (Sample.default_prompt false) (Sample.default_prompt true) "+15551234567"
           {| ok := true; status := 200; text := "{...}";
              json := Some (Sample.completion (VStr "")) |}
           [("id", VStr "chatcmpl-1");
            ("choices",
             VArr [VObj [("index", VNum 0);
                         ("message", VObj [("role", VStr "assistant");
                                           ("content", VStr "")])]])]
           [("index", VNum 0);
            ("message", VObj [("role", VStr "assistant"); ("content", VStr "")])]
           [("role", VStr "assistant"); ("content", VStr "")]
           []);
    try reflexivity; vm_compute; reflexivity.
Defined.

(** *** The chat handler *)

Lemma try_reply (m : M string) :
  try_catch
    (answer <- m ;; emit (WsSend (AnswerFrame answer)))
    (fun _ => emit (WsSend (ErrorFrame Server.chat_apology)))
  = match m with
    | (inr answer, t) => (inr tt, (t ++ [WsSend (AnswerFrame answer)])%list)
    | (inl _, t) => (inr tt, (t ++ [WsSend (ErrorFrame Server.chat_apology)])%list)
    end.
Proof. destruct m as [[e|answer] t]; reflexivity. Qed.

Lemma on_message_configured (g : globals) (api : request -> fetch_outcome)
      (fields : list (string * value)) (q : string) :
  lookup "question" fields = Some (VStr q) ->
  trim q <> "" ->
  truthy (key_value g) = true ->
  Server.on_message g api (Some (VObj fields))
  = match Server.askOpenAIForChat g api (trim q) (knowledgeBase g) with
    | (inr answer, t) => (inr tt, (t ++ [WsSend (AnswerFrame answer)])%list)
    | (inl _, t) => (inr tt, (t ++ [WsSend (ErrorFrame Server.chat_apology)])%list)
    end.
Proof.
  intros Hq Hne Hk. unfold Server.on_message. cbn [get_field]. rewrite Hq.
  rewrite bind_ret_l, or_else_text, bind_ret_l.
  rewrite (truthy_text _ Hne), Hk. cbn [negb].
  apply try_reply.
Qed.

(** C7, as the code has it: for a payload whose [question] is a string that is
    not blank, with a credential configured, the handler sends exactly one
    reply; it is tagged [answer] when the completion client returns, and
    tagged [error] when the completion client throws. *)
Theorem chat_reply_follows_completion (g : globals) (api : request -> fetch_outcome)
        (fields : list (string * value)) (q : string) :
  lookup "question" fields = Some (VStr q) ->
  trim q <> "" ->
  truthy (key_value g) = true ->
  let ask := Server.askOpenAIForChat g api (trim q) (knowledgeBase g) in
  exists f t,
    Server.on_message g api (Some (VObj fields)) = (inr tt, t)
    /\ frames_sent t = [f]
    /\ ((exists answer, fst ask = inr answer /\ f = AnswerFrame answer)
        \/ (threw ask = true /\ f = ErrorFrame Server.chat_apology)).
Proof.
  intros Hq Hne Hk ask.
  rewrite (on_message_configured g api fields q Hq Hne Hk).
  pose proof (askOpenAIForChat_trace Server.buildSystemPrompt g api (trim q)
                (knowledgeBase g)) as [Hf _].
  fold Server.askOpenAIForChat in Hf. fold ask in Hf. fold ask.
  unfold threw. destruct ask as [[e|answer] t]; simpl in Hf |- *;
    ran;
    rewrite frames_sent_app, Hf; (split; [reflexivity|]).
  - right. split; reflexivity.
  - left. exists answer. split; reflexivity.
Qed.

Lemma chat_reply_follows_completion_witness :
  let api := Sample.answers (VStr "Yes, Springfield is in our service area.") in
  let ask := Server.askOpenAIForChat Sample.configured api
               (trim "Do you serve Springfield?") (knowledgeBase Sample.configured) in
  exists f t,
    Server.on_message Sample.configured api (Some Sample.springfield) = (inr tt, t)
    /\ frames_sent t = [f]
    /\ ((exists answer, fst ask = inr answer /\ f = AnswerFrame answer)
        \/ (threw ask = true /\ f = ErrorFrame Server.chat_apology)).
Proof.
  intros api ask.
  apply (chat_reply_follows_completion Sample.configured api
           [("question", VStr "Do you serve Springfield?")] "Do you serve Springfield?").
  - reflexivity.
  - vm_compute. discriminate.
  - reflexivity.
Defined.

(** C7, as the claim words it, fails: with a credential configured and a
    question that is not blank, the reply is tagged [error] when the API
    answers 500. *)
Lemma chat_configured_can_reply_error :
  lookup "question" [("question", VStr "Do you serve Springfield?")]
    = Some (VStr "Do you serve Springfield?")
  /\ trim "Do you serve Springfield?" <> ""
  /\ truthy (key_value Sample.configured) = true
  /\ map frame_type
       (frames_sent (snd (Server.on_message Sample.configured Sample.fails
                            (Some Sample.springfield))))
     = ["error"].
Proof.
  split; [reflexivity|]. split; [vm_compute; discriminate|].
  split; [reflexivity|]. vm_compute. reflexivity.
Qed.

(** C1: a payload that parses, but whose [question] is a truthy value other
    than a string (here the number 5), makes the handler throw at [.trim()]
    before any reply is sent and outside both [try] blocks, in all three
    revisions; so does the payload [null], at [payload.question]. *)
Theorem chat_question_not_text_faults (g : globals) (api : request -> fetch_outcome) :
  Server.on_message g api (Some (VObj [("question", VNum 5)]))
    = (inl (TypeError "trim is not a function"), [])
  /\ TwilioV1.on_message g api (Some (VObj [("question", VNum 5)]))
     = (inl (TypeError "trim is not a function"), [])
  /\ Minimal.on_message g api (Some (VObj [("question", VNum 5)]))
     = (inl (TypeError "trim is not a function"), [])
  /\ Server.on_message g api (Some (VObj [("question", VObj [("text", VStr "hi")])]))
     = (inl (TypeError "trim is not a function"), [])
  /\ Server.on_message g api (Some VNull)
     = (inl (TypeError "Cannot read properties of null (reading 'question')"), []).
Proof. repeat split. Qed.

(** X20: the same for every truthy [question] that is not a string: the
    handler of the final revision throws at [.trim()] and sends nothing. *)
Lemma chat_question_not_text_always_faults (g : globals) (api : request -> fetch_outcome)
      (fields : list (string * value)) (q : value) :
  lookup "question" fields = Some q ->
  truthy q = true ->
  (forall s, q <> VStr s) ->
  Server.on_message g api (Some (VObj fields))
  = (inl (TypeError "trim is not a function"), []).
Proof.
  intros Hq Ht Hs. unfold Server.on_message. cbn [get_field]. rewrite Hq, bind_ret_l.
  unfold or_else. rewrite Ht.
  destruct q; try discriminate; try reflexivity.
  exfalso. apply (Hs s). reflexivity.
Qed.

(** X18: where the handler does reply once: when the frame does not parse, or
    the payload is an object whose [question] is absent or a string, and the
    knowledge record is an object whose contact phone is absent or a string,
    the handler of the final revision returns after exactly one frame, tagged
    [answer] or [error]. *)
Theorem chat_replies_once_to_text (g : globals) (api : request -> fetch_outcome)
        (data : option value) (kb : list (string * value)) :
  knowledgeBase g = VObj kb ->
  (lookup "contact_phone" kb = None
   \/ exists p, lookup "contact_phone" kb = Some (VStr p)) ->
  (data = None
   \/ exists fields,
        data = Some (VObj fields)
        /\ (lookup "question" fields = None
            \/ exists q, lookup "question" fields = Some (VStr q))) ->
  exists f t,
    Server.on_message g api data = (inr tt, t)
    /\ frames_sent t = [f]
    /\ (frame_type f = "answer" \/ frame_type f = "error").
Proof.
  intros Hkb Hphone [Hd | [fields [Hd Hq]]]; subst data.
  - ran. split; [reflexivity|]. now right.
  - assert (Hblank : forall q,
              call_trim (or_else (match lookup "question" fields with
                                  | Some x => x | None => VUndef end) (VStr ""))
              = inr q ->
              q = "" ->
              exists f t, Server.on_message g api (Some (VObj fields)) = (inr tt, t)
                          /\ frames_sent t = [f]
                          /\ (frame_type f = "answer" \/ frame_type f = "error")).
    { intros q Hc Hz. unfold Server.on_message. cbn [get_field].
      rewrite bind_ret_l, Hc, bind_ret_l. subst q.
      ran. split; [reflexivity|]. now right. }
    assert (Htext : forall q,
              call_trim (or_else (match lookup "question" fields with
                                  | Some x => x | None => VUndef end) (VStr ""))
              = inr q ->
              q <> "" ->
              exists f t, Server.on_message g api (Some (VObj fields)) = (inr tt, t)
                          /\ frames_sent t = [f]
                          /\ (frame_type f = "answer" \/ frame_type f = "error")).
    { intros q Hc Hnz. unfold Server.on_message. cbn [get_field].
      rewrite bind_ret_l, Hc, bind_ret_l, (truthy_text _ Hnz). cbn [negb].
      destruct (truthy (key_value g)) eqn:Hk; cbn [negb].
      - rewrite try_reply.
        pose proof (askOpenAIForChat_trace Server.buildSystemPrompt g api q
                      (knowledgeBase g)) as [Hf _].
        fold Server.askOpenAIForChat in Hf.
        destruct (Server.askOpenAIForChat g api q (knowledgeBase g)) as [[e|a] t];
          simpl in Hf; ran;
          rewrite frames_sent_app, Hf; (split; [reflexivity|]); [now right | now left].
      - rewrite Hkb. cbn [get_field].
        destruct Hphone as [Hp | [p Hp]]; rewrite Hp, bind_ret_l.
        + cbn [or_else truthy ToString]. rewrite bind_ret_l.
          ran. split; [reflexivity|]. now left.
        + unfold or_else. destruct (truthy (VStr p)); cbn [ToString];
            rewrite bind_ret_l; ran; (split; [reflexivity|]); now left. }
    destruct Hq as [Hq | [q Hq]].
    + apply (Hblank ""); [rewrite Hq|]; reflexivity.
    + destruct (string_dec (trim q) "") as [Hz | Hnz].
      * apply (Hblank (trim q)); [rewrite Hq; apply or_else_text | exact Hz].
      * apply (Htext (trim q)); [rewrite Hq; apply or_else_text | exact Hnz].
Qed.

(** *** Loading the knowledge record *)

(** C8, as the claim words it, fails: after a failed load the default record
    has no [services], [pricing_notes], [booking_process] or [faqs] at all, a
    field absent from the source stays [undefined], and the earlier revisions
    fall back to an empty record. *)
Lemma loaded_record_keeps_gaps :
  get_field (Server.load None) "services" = inr VUndef
  /\ get_field (Server.load None) "faqs" = inr VUndef
  /\ get_field (Server.load (Some (VObj [("business_name", VStr "Handyman of Fairfax")])))
       "summary" = inr VUndef
  /\ get_field (Minimal.load None) "summary" = inr VUndef
  /\ VUndef <> VStr "" /\ VUndef <> VArr [].
Proof. repeat split; discriminate. Qed.

(** ** Further properties *)

Import Reading.

(** *** [escapeForXml], continued *)

Lemma entity_special (c : ascii) : special c = false -> entity c = String c "".
Proof.
  unfold special, entity. intros H.
  apply orb_false_elim in H as [H Hg]. apply orb_false_elim in H as [Ha Hl].
  now rewrite Ha, Hl, Hg.
Qed.

Lemma escape_each_app (a b : string) :
  escape_each (a ++ b) = escape_each a ++ escape_each b.
Proof.
  induction a as [|c r IH]; [reflexivity|].
  cbn [append escape_each]. now rewrite IH, append_assoc.
Qed.

Lemma length_app (a b : string) :
  String.length (a ++ b) = (String.length a + String.length b)%nat.
Proof. induction a as [|c r IH]; simpl; [reflexivity | now rewrite IH]. Qed.

Lemma entity_length (c : ascii) :
  (1 <= String.length (entity c))%nat
  /\ (special c = true -> 2 <= String.length (entity c))%nat.
Proof.
  unfold special, entity.
  destruct (Ascii.eqb c "&"); [simpl; lia|].
  destruct (Ascii.eqb c "<"); [simpl; lia|].
  destruct (Ascii.eqb c ">"); simpl; [lia|].
  split; [lia | discriminate].
Qed.

Lemma escape_each_length (s : string) :
  (String.length s <= String.length (escape_each s))%nat
  /\ (has_special s = true -> String.length s < String.length (escape_each s))%nat.
Proof.
  induction s as [|c r [IH1 IH2]]; [split; [reflexivity | discriminate]|].
  cbn [escape_each has_special]. rewrite length_app. cbn [String.length].
  destruct (entity_length c) as [H1 H2].
  split; [lia|].
  intros H. apply orb_true_iff in H as [H | H]; [specialize (H2 H) | specialize (IH2 H)]; lia.
Qed.

(** X1: escaping is a morphism for concatenation, never shortens a text, and
    leaves a text unchanged exactly when it holds none of [&], [<], [>]. *)
Theorem escapeForXml_plain_text (a b : string) :
  escape_text (a ++ b) = escape_text a ++ escape_text b
  /\ (String.length a <= String.length (escape_text a))%nat
  /\ (escape_text a = a <-> has_special a = false).
Proof.
  rewrite !escape_text_each. split; [apply escape_each_app|].
  split; [apply escape_each_length|].
  split.
  - intros H. destruct (has_special a) eqn:E; [|reflexivity].
    pose proof (proj2 (escape_each_length a) E) as Hl. rewrite H in Hl. lia.
  - induction a as [|c r IH]; [reflexivity|].
    cbn [has_special escape_each]. intros H.
    apply orb_false_elim in H as [Hc Hr].
    now rewrite (entity_special c Hc), (IH Hr).
Qed.

Lemma escape_each_injective (a : string) :
  forall b, escape_each a = escape_each b -> a = b.
Proof.
  induction a as [|x r IH]; intros [|y r'] H.
  - reflexivity.
  - exfalso. cbn [escape_each] in H. unfold entity in H.
    destruct (Ascii.eqb y "&"); [discriminate|].
    destruct (Ascii.eqb y "<"); [discriminate|].
    destruct (Ascii.eqb y ">"); discriminate.
  - exfalso. cbn [escape_each] in H. unfold entity in H.
    destruct (Ascii.eqb x "&"); [discriminate|].
    destruct (Ascii.eqb x "<"); [discriminate|].
    destruct (Ascii.eqb x ">"); discriminate.
  - cbn [escape_each] in H. unfold entity in H.
    destruct (Ascii.eqb x "&") eqn:Xa; [apply Ascii.eqb_eq in Xa|];
    [|destruct (Ascii.eqb x "<") eqn:Xl; [apply Ascii.eqb_eq in Xl|];
      [|destruct (Ascii.eqb x ">") eqn:Xg; [apply Ascii.eqb_eq in Xg|]]];
    (destruct (Ascii.eqb y "&") eqn:Ya; [apply Ascii.eqb_eq in Ya|];
     [|destruct (Ascii.eqb y "<") eqn:Yl; [apply Ascii.eqb_eq in Yl|];
       [|destruct (Ascii.eqb y ">") eqn:Yg; [apply Ascii.eqb_eq in Yg|]]]);
    subst; cbn [append] in H; try discriminate H;
    try (injection H as H; f_equal; apply IH; exact H);
    try (injection H as Hc H; subst;
         rewrite ?Ascii.eqb_refl in *; try discriminate;
         f_equal; apply IH; exact H).
Qed.

(** X2: escaping loses nothing: two different texts never have the same
    escaped form. *)
Theorem escapeForXml_injective (a b : string) :
  a <> b -> escapeForXml (VStr a) <> escapeForXml (VStr b).
Proof.
  intros Hab H. apply Hab.
  unfold escapeForXml in H. cbn [ToString rbind] in H.
  rewrite !escape_text_each in H. injection H as H.
  apply (escape_each_injective a b H).
Qed.

Lemma escapeForXml_injective_witness :
  escapeForXml (VStr "a<b") <> escapeForXml (VStr "a&lt;b").
Proof.
  apply (escapeForXml_injective "a<b" "a&lt;b"). discriminate.
Defined.

Lemma count_char_app (c : ascii) (a b : string) :
  count_char c (a ++ b) = (count_char c a + count_char c b)%nat.
Proof. induction a as [|x r IH]; simpl; [reflexivity | rewrite IH; lia]. Qed.

Lemma count_char_absent (c : ascii) (s : string) :
  has_char c s = false -> count_char c s = 0%nat.
Proof.
  induction s as [|x r IH]; [reflexivity|].
  simpl. intros H. apply orb_false_elim in H as [Hx Hr].
  now rewrite Hx, (IH Hr).
Qed.

(** Whatever [escapeForXml] returns holds no angle bracket. *)
Lemma escapeForXml_clean (v : value) (p : string) :
  escapeForXml v = inr p ->
  count_char "<" p = 0%nat /\ count_char ">" p = 0%nat.
Proof.
  unfold escapeForXml. destruct (ToString v) as [e|s]; [discriminate|].
  cbn [rbind]. intros H. injection H as <-. rewrite escape_text_each.
  split; apply count_char_absent; [apply escape_each_no_lt | apply escape_each_no_gt].
Qed.

Lemma response_document_brackets (say : string) :
  count_char "<" (twiml_document (responseTwiml say)) = (count_char "<" say + 9)%nat
  /\ count_char ">" (twiml_document (responseTwiml say)) = (count_char ">" say + 9)%nat.
Proof.
  unfold twiml_document, responseTwiml, unlines, dq, nl.
  cbn [String.concat append].
  cbn [count_char Ascii.eqb Bool.eqb Nat.add].
  rewrite !append_assoc, !count_char_app.
  split; vm_compute (count_char _ (String _ _)); lia.
Qed.

Lemma fallback_document_brackets (phone : string) :
  count_char "<" (twiml_document (Server.fallback phone)) = (count_char "<" phone + 6)%nat
  /\ count_char ">" (twiml_document (Server.fallback phone)) = (count_char ">" phone + 6)%nat.
Proof.
  unfold twiml_document, Server.fallback, unlines, dq, nl.
  cbn [String.concat append].
  cbn [count_char Ascii.eqb Bool.eqb Nat.add].
  rewrite !append_assoc, !count_char_app.
  split; vm_compute (count_char _ (String _ _)); lia.
Qed.

(** X3: text handed to [escapeForXml] cannot add markup to a voice document:
    whatever the answer, the spoken-answer document holds exactly the nine [<]
    and nine [>] of its template, and whatever the contact phone, the
    fallback document of the final revision holds exactly six of each. *)
Theorem voice_documents_keep_their_tags (text : value) (say : string) :
  escapeForXml text = inr say ->
  count_char "<" (twiml_document (responseTwiml say)) = 9%nat
  /\ count_char ">" (twiml_document (responseTwiml say)) = 9%nat
  /\ count_char "<" (twiml_document (Server.fallback say)) = 6%nat
  /\ count_char ">" (twiml_document (Server.fallback say)) = 6%nat.
Proof.
  intros H. destruct (escapeForXml_clean text say H) as [Hl Hg].
  destruct (response_document_brackets say) as [R1 R2].
  destruct (fallback_document_brackets say) as [F1 F2].
  rewrite R1, R2, F1, F2, Hl, Hg. repeat split.
Qed.

Lemma voice_documents_keep_their_tags_witness :
  let say := "&lt;/Say&gt;&lt;Dial&gt;+15550000000&lt;/Dial&gt;" in
  count_char "<" (twiml_document (responseTwiml say)) = 9%nat
  /\ count_char ">" (twiml_document (responseTwiml say)) = 9%nat
  /\ count_char "<" (twiml_document (Server.fallback say)) = 6%nat
  /\ count_char ">" (twiml_document (Server.fallback say)) = 6%nat.
Proof.
  apply (voice_documents_keep_their_tags (VStr "</Say><Dial>+15550000000</Dial>")).
  reflexivity.
Defined.

(** *** The chat handler, branch by branch *)

Lemma or_else_falsy (q : value) :
  truthy q = false -> call_trim (or_else q (VStr "")) = inr "".
Proof. intros H. unfold or_else. rewrite H. reflexivity. Qed.

Section ChatBranches.

Variable g : globals.
Variable api : request -> fetch_outcome.
Variable payload : value.

(** X4: a payload whose [question] is absent, falsy, or a string that is blank
    once trimmed is answered by the one frame [Missing "question" field in
    payload.], tagged [error], in all three revisions, with or without a
    credential; the completion API is not called. *)
Theorem chat_blank_question_rejected (q : value) :
  get_field payload "question" = inr q ->
  truthy q = false \/ (exists s, q = VStr s /\ trim s = "") ->
  Server.on_message g api (Some payload) = (inr tt, [WsSend missing_question])
  /\ TwilioV1.on_message g api (Some payload) = (inr tt, [WsSend missing_question])
  /\ Minimal.on_message g api (Some payload) = (inr tt, [WsSend missing_question])
  /\ frame_type missing_question = "error".
Proof.
  intros Hq Hblank.
  assert (Ht : call_trim (or_else q (VStr "")) = inr "").
  { destruct Hblank as [H | [s [-> H]]]; [apply or_else_falsy, H|].
    rewrite or_else_text, H. reflexivity. }
  unfold TwilioV1.on_message, Minimal.on_message, Earlier.on_message, Server.on_message.
  rewrite Hq, !bind_ret_l, Ht, !bind_ret_l. repeat split.
Qed.

(** X5: without a credential, a question that is not blank is answered by one
    frame tagged [answer] whose text names the contact phone of the knowledge
    record, in all three revisions; the completion API is not called. *)
Theorem chat_unconfigured_names_phone (q phone : string) :
  get_field payload "question" = inr (VStr q) ->
  trim q <> "" ->
  truthy (key_value g) = false ->
  get_field (knowledgeBase g) "contact_phone" = inr (VStr phone) ->
  phone <> "" ->
  Server.on_message g api (Some payload)
    = (inr tt, [WsSend (AnswerFrame (Server.not_configured phone))])
  /\ TwilioV1.on_message g api (Some payload)
     = (inr tt, [WsSend (AnswerFrame (Earlier.not_configured phone))])
  /\ Minimal.on_message g api (Some payload)
     = (inr tt, [WsSend (AnswerFrame (Earlier.not_configured phone))])
  /\ includes phone (Server.not_configured phone) = true
  /\ includes phone (Earlier.not_configured phone) = true.
Proof.
  intros Hq Hne Hk Hp Hset.
  unfold TwilioV1.on_message, Minimal.on_message, Earlier.on_message, Server.on_message.
  rewrite Hq, !bind_ret_l, or_else_text, !bind_ret_l.
  rewrite (truthy_text _ Hne), Hk, Hp. cbn [negb]. rewrite !bind_ret_l.
  unfold or_else. rewrite (truthy_text _ Hset). cbn [ToString]. rewrite !bind_ret_l.
  repeat split; unfold Server.not_configured, Earlier.not_configured;
    apply includes_middle.
Qed.

End ChatBranches.

Lemma chat_blank_question_rejected_witness :
  let payload := VObj [("question", VStr "   "); ("lang", VStr "en")] in
  Server.on_message Sample.configured Sample.unreachable (Some payload)
    = (inr tt, [WsSend missing_question])
  /\ TwilioV1.on_message Sample.configured Sample.unreachable (Some payload)
     = (inr tt, [WsSend missing_question])
  /\ Minimal.on_message Sample.configured Sample.unreachable (Some payload)
     = (inr tt, [WsSend missing_question])
  /\ frame_type missing_question = "error".
Proof.
  apply (chat_blank_question_rejected Sample.configured Sample.unreachable
           (VObj [("question", VStr "   "); ("lang", VStr "en")]) (VStr "   ")).
  - reflexivity.
  - right. exists "   ". split; reflexivity.
Defined.

Lemma chat_unconfigured_names_phone_witness :
  Server.on_message Sample.unconfigured Sample.unreachable (Some Sample.springfield)
    = (inr tt, [WsSend (AnswerFrame (Server.not_configured "(555) 555-5555"))])
  /\ TwilioV1.on_message Sample.unconfigured Sample.unreachable (Some Sample.springfield)
     = (inr tt, [WsSend (AnswerFrame (Earlier.not_configured "(555) 555-5555"))])
  /\ Minimal.on_message Sample.unconfigured Sample.unreachable (Some Sample.springfield)
     = (inr tt, [WsSend (AnswerFrame (Earlier.not_configured "(555) 555-5555"))])
  /\ includes "(555) 555-5555" (Server.not_configured "(555) 555-5555") = true
  /\ includes "(555) 555-5555" (Earlier.not_configured "(555) 555-5555") = true.
Proof.
  apply (chat_unconfigured_names_phone Sample.unconfigured Sample.unreachable
           Sample.springfield "Do you serve Springfield?" "(555) 555-5555").
  - reflexivity.
  - vm_compute. discriminate.
  - reflexivity.
  - reflexivity.
  - discriminate.
Defined.

(** *** What a handler leaves behind, whatever it is given *)

Lemma requests_made_app (a b : list event) :
  requests_made (a ++ b) = (requests_made a ++ requests_made b)%list.
Proof. apply flat_map_app. Qed.

Lemma try_reply_with (apology : string) (m : M string) :
  try_catch
    (answer <- m ;; emit (WsSend (AnswerFrame answer)))
    (fun _ => emit (WsSend (ErrorFrame apology)))
  = match m with
    | (inr answer, t) => (inr tt, (t ++ [WsSend (AnswerFrame answer)])%list)
    | (inl _, t) => (inr tt, (t ++ [WsSend (ErrorFrame apology)])%list)
    end.
Proof. destruct m as [[e|answer] t]; reflexivity. Qed.

Ltac faulted :=
  cbn [bind lift fst snd]; unfold returned, threw; cbn [fst snd];
  split; [right; split; reflexivity
         | split; [cbn; auto with arith | split; [intros _; reflexivity | reflexivity]]].

Ltac sent_once :=
  unfold returned, threw; cbn [fst snd emit twiml];
  split; [left; split; reflexivity
         | split; [cbn; auto with arith | split; [intros _; reflexivity | reflexivity]]].

Ltac tried Hf Hd Hr :=
  unfold returned, threw; cbn [fst snd];
  rewrite ?frames_sent_app, ?documents_sent_app, ?requests_made_app, ?Hf, ?Hd;
  cbn [frames_sent documents_sent requests_made flat_map app length];
  rewrite ?app_nil_r;
  split; [left; split; reflexivity
         | split; [exact Hr | split; [intros Hx; discriminate Hx | reflexivity]]].

Lemma earlier_on_message_shape (ask : string -> value -> M string) (g : globals)
      (data : option value) :
  (forall q kb,
      frames_sent (snd (ask q kb)) = [] /\ documents_sent (snd (ask q kb)) = []
      /\ (length (requests_made (snd (ask q kb))) <= 1)%nat) ->
  chat_shape g (Earlier.on_message ask g data).
Proof.
  intros Hask. unfold chat_shape, Earlier.on_message.
  destruct data as [payload|]; [|sent_once].
  destruct (get_field payload "question") as [e|q]; [faulted|]. rewrite bind_ret_l.
  destruct (call_trim (or_else q (VStr ""))) as [e|question]; [faulted|].
  rewrite bind_ret_l.
  destruct (truthy (VStr question)); cbn [negb]; [|sent_once].
  destruct (truthy (key_value g)) eqn:Hk; cbn [negb].
  - rewrite try_reply_with.
    destruct (Hask question (knowledgeBase g)) as [Hf [Hd Hr]].
    destruct (ask question (knowledgeBase g)) as [[e|a] t]; cbn [snd] in Hf, Hd, Hr;
      tried Hf Hd Hr.
  - destruct (get_field (knowledgeBase g) "contact_phone") as [e|phone]; [faulted|].
    rewrite bind_ret_l.
    destruct (ToString (or_else phone (VStr "(phone not set)"))) as [e|p]; [faulted|].
    rewrite bind_ret_l. sent_once.
Qed.

Lemma server_on_message_shape (g : globals) (api : request -> fetch_outcome)
      (data : option value) :
  chat_shape g (Server.on_message g api data).
Proof.
  unfold chat_shape, Server.on_message.
  destruct data as [payload|]; [|sent_once].
  destruct (get_field payload "question") as [e|q]; [faulted|]. rewrite bind_ret_l.
  destruct (call_trim (or_else q (VStr ""))) as [e|question]; [faulted|].
  rewrite bind_ret_l.
  destruct (truthy (VStr question)); cbn [negb]; [|sent_once].
  destruct (truthy (key_value g)) eqn:Hk; cbn [negb].
  - rewrite try_reply.
    pose proof (askOpenAIForChat_trace Server.buildSystemPrompt g api question
                  (knowledgeBase g)) as [Hf [Hd Hr]].
    fold Server.askOpenAIForChat in Hf, Hd, Hr.
    destruct (Server.askOpenAIForChat g api question (knowledgeBase g)) as [[e|a] t];
      cbn [snd] in Hf, Hd, Hr; tried Hf Hd Hr.
  - destruct (get_field (knowledgeBase g) "contact_phone") as [e|phone]; [faulted|].
    rewrite bind_ret_l.
    destruct (ToString (or_else phone (VStr "(phone not set)"))) as [e|p]; [faulted|].
    rewrite bind_ret_l. sent_once.
Qed.

Lemma server_twilio_voice_shape (g : globals) (api : request -> fetch_outcome)
      (body : value) :
  voice_shape g (Server.twilio_voice g api body).
Proof.
  unfold voice_shape, Server.twilio_voice.
  destruct (get_field body "From") as [e|f]; [faulted|]. rewrite bind_ret_l.
  cbv zeta.
  destruct (get_field body "SpeechResult") as [e|s]; [faulted|]. rewrite bind_ret_l.
  destruct (call_trim (or_else s (VStr ""))) as [e|speech]; [faulted|].
  rewrite bind_ret_l.
  destruct (truthy (VStr speech)); cbn [negb]; [|sent_once].
  destruct (truthy (key_value g)) eqn:Hk; cbn [negb].
  - rewrite try_answer.
    pose proof (askOpenAIForPhone_trace Server.buildSystemPrompt g api speech
                  (knowledgeBase g) (or_else f (VStr ""))) as [Hf [Hd Hr]].
    fold Server.askOpenAIForPhone in Hf, Hd, Hr.
    destruct (Server.askOpenAIForPhone g api speech (knowledgeBase g)
                (or_else f (VStr ""))) as [[e|a] t];
      cbn [snd] in Hf, Hd, Hr; tried Hf Hd Hr.
  - destruct (get_field (knowledgeBase g) "contact_phone") as [e|phone]; [faulted|].
    rewrite bind_ret_l.
    destruct (escapeForXml (or_else phone (VStr "our regular number"))) as [e|p];
      [faulted|].
    rewrite bind_ret_l. sent_once.
Qed.

Lemma v1_twilio_voice_shape (g : globals) (api : request -> fetch_outcome)
      (body : value) :
  voice_shape g (TwilioV1.twilio_voice g api body).
Proof.
  unfold voice_shape, TwilioV1.twilio_voice.
  destruct (get_field body "From") as [e|f]; [faulted|]. rewrite bind_ret_l.
  cbv zeta.
  destruct (get_field body "SpeechResult") as [e|s]; [faulted|]. rewrite bind_ret_l.
  destruct (call_trim (or_else s (VStr ""))) as [e|speech]; [faulted|].
  rewrite bind_ret_l.
  destruct (truthy (VStr speech)); cbn [negb]; [|sent_once].
  destruct (truthy (key_value g)) eqn:Hk; cbn [negb].
  - rewrite try_answer.
    pose proof (askOpenAIForPhone_trace TwilioV1.buildSystemPrompt g api speech
                  (knowledgeBase g) (or_else f (VStr ""))) as [Hf [Hd Hr]].
    fold TwilioV1.askOpenAIForPhone in Hf, Hd, Hr.
    destruct (TwilioV1.askOpenAIForPhone g api speech (knowledgeBase g)
                (or_else f (VStr ""))) as [[e|a] t];
      cbn [snd] in Hf, Hd, Hr; tried Hf Hd Hr.
  - destruct (get_field (knowledgeBase g) "contact_phone") as [e|phone]; [faulted|].
    rewrite bind_ret_l.
    destruct (escapeForXml (or_else phone (VStr "our regular number"))) as [e|p];
      [faulted|].
    rewrite bind_ret_l. sent_once.
Qed.

(** X6: whatever frame arrives and whatever the completion API does, the chat
    handler of each revision either returns after sending exactly one frame, or
    throws before any effect; it asks the completion API at most once, never
    without a credential, and sends no HTTP document. *)
Theorem chat_handler_outcomes (g : globals) (api : request -> fetch_outcome)
        (data : option value) :
  chat_shape g (Server.on_message g api data)
  /\ chat_shape g (TwilioV1.on_message g api data)
  /\ chat_shape g (Minimal.on_message g api data).
Proof.
  split; [apply server_on_message_shape|].
  split; apply earlier_on_message_shape; intros q kb.
  - apply (askOpenAIForChat_trace TwilioV1.buildSystemPrompt g api q kb).
  - apply (askOpenAIForChat_trace Minimal.buildSystemPrompt g api q kb).
Qed.

(** X7: whatever the form body and whatever the completion API does, the voice
    webhook of both Twilio revisions either returns after sending exactly one
    document, or throws before any effect; it asks the completion API at most
    once, never without a credential, and sends nothing on the socket. *)
Theorem voice_webhook_outcomes (g : globals) (api : request -> fetch_outcome)
        (body : value) :
  voice_shape g (Server.twilio_voice g api body)
  /\ voice_shape g (TwilioV1.twilio_voice g api body).
Proof.
  split; [apply server_twilio_voice_shape | apply v1_twilio_voice_shape].
Qed.

(** X8: a form body whose [SpeechResult] is truthy but not a string (the field
    sent twice parses to an array) makes the voice webhook of both Twilio
    revisions throw at [.trim()]: no document is sent and the completion API
    is not called. *)
Theorem voice_speech_not_text_faults (g : globals) (api : request -> fetch_outcome)
        (body s : value) :
  get_field body "SpeechResult" = inr s ->
  truthy s = true ->
  (forall text, s <> VStr text) ->
  Server.twilio_voice g api body = (inl (TypeError "trim is not a function"), [])
  /\ TwilioV1.twilio_voice g api body = (inl (TypeError "trim is not a function"), []).
Proof.
  intros Hs Ht Hn.
  assert (Hb : exists f, get_field body "From" = inr f).
  { destruct body; try discriminate Hs; eexists; reflexivity. }
  destruct Hb as [f Hf].
  unfold Server.twilio_voice, TwilioV1.twilio_voice.
  rewrite Hf, !bind_ret_l. cbv zeta. rewrite Hs, !bind_ret_l.
  unfold or_else. rewrite Ht.
  destruct s; try discriminate Ht; try (split; reflexivity).
  exfalso. apply (Hn s). reflexivity.
Qed.

Lemma voice_speech_not_text_faults_witness :
  let body := VObj [("From", VStr "+15551234567");
                    ("SpeechResult", VArr [VStr "leaky"; VStr "faucet"])] in
  Server.twilio_voice Sample.configured Sample.unreachable body
    = (inl (TypeError "trim is not a function"), [])
  /\ TwilioV1.twilio_voice Sample.configured Sample.unreachable body
     = (inl (TypeError "trim is not a function"), []).
Proof.
  apply (voice_speech_not_text_faults Sample.configured Sample.unreachable
           (VObj [("From", VStr "+15551234567");
                  ("SpeechResult", VArr [VStr "leaky"; VStr "faucet"])])
           (VArr [VStr "leaky"; VStr "faucet"])).
  - reflexivity.
  - reflexivity.
  - discriminate.
Defined.

(** *** The voice webhook, first Twilio revision *)

Section VoiceV1.

Variable g : globals.
Variable api : request -> fetch_outcome.
Variable fields : list (string * value).

(** X9: in the first Twilio revision too, a request whose [SpeechResult] is
    absent, or blank once trimmed, is answered by one document holding a
    speech-gather directive that posts back to [/twilio-voice]; the completion
    API is not called. *)
Theorem v1_voice_greeting_gathers :
  lookup "SpeechResult" fields = None
  \/ (exists s, lookup "SpeechResult" fields = Some (VStr s) /\ trim s = "") ->
  TwilioV1.twilio_voice g api (VObj fields)
    = (inr tt, [HttpSend "text/xml" (twiml_document TwilioV1.gatherTwiml)])
  /\ includes gather_same_path (twiml_document TwilioV1.gatherTwiml) = true
  /\ includes hangup (twiml_document TwilioV1.gatherTwiml) = false.
Proof.
  intros H. split; [|split; vm_compute; reflexivity].
  unfold TwilioV1.twilio_voice. cbn [get_field]. rewrite bind_ret_l.
  destruct H as [H | [s [H Hs]]]; rewrite H.
  - rewrite bind_ret_l. reflexivity.
  - rewrite bind_ret_l, or_else_text, bind_ret_l, Hs. reflexivity.
Qed.

(** X10: in the first Twilio revision too, a request whose [SpeechResult] is
    not blank, with a credential configured, is answered by one document that
    holds [<Hangup/>] and no [<Gather]: the escaped answer when the completion
    client returns, the apology when it throws. *)
Theorem v1_voice_answer_ends_call (speech : string) :
  lookup "SpeechResult" fields = Some (VStr speech) ->
  trim speech <> "" ->
  truthy (key_value g) = true ->
  let ask := TwilioV1.askOpenAIForPhone g api (trim speech) (knowledgeBase g)
               (caller fields) in
  exists doc,
    TwilioV1.twilio_voice g api (VObj fields)
      = (inr tt, (snd ask ++ [HttpSend "text/xml" doc])%list)
    /\ documents_sent (snd ask) = []
    /\ includes hangup doc = true
    /\ includes gather_open doc = false
    /\ ((exists answer, fst ask = inr answer
                        /\ doc = twiml_document (responseTwiml (escape_text answer)))
        \/ (threw ask = true /\ doc = twiml_document errorTwiml)).
Proof.
  intros Hs Hne Hk ask.
  assert (Hrun : TwilioV1.twilio_voice g api (VObj fields)
                 = match ask with
                   | (inr answer, t) =>
                       (inr tt,
                        (t ++ [HttpSend "text/xml"
                                 (twiml_document (responseTwiml (escape_text answer)))])%list)
                   | (inl _, t) =>
                       (inr tt, (t ++ [HttpSend "text/xml" (twiml_document errorTwiml)])%list)
                   end).
  { unfold TwilioV1.twilio_voice. cbn [get_field]. rewrite bind_ret_l.
    rewrite Hs, bind_ret_l, or_else_text, bind_ret_l.
    rewrite (truthy_text _ Hne), Hk. cbn [negb]. apply try_answer. }
  rewrite Hrun.
  pose proof (askOpenAIForPhone_trace TwilioV1.buildSystemPrompt g api (trim speech)
                (knowledgeBase g) (caller fields)) as [_ [Hd _]].
  fold TwilioV1.askOpenAIForPhone in Hd. fold ask in Hd.
  unfold threw. destruct ask as [[e|answer] t]; cbn [fst snd] in Hd |- *;
    eexists; (split; [reflexivity|]); (split; [exact Hd|]).
  - split; [vm_compute; reflexivity|]. split; [vm_compute; reflexivity|].
    right. split; reflexivity.
  - split; [apply success_document_hangs_up|].
    split; [apply success_document_no_gather; rewrite escape_text_each;
            apply escape_each_no_lt|].
    left. exists answer. split; reflexivity.
Qed.

End VoiceV1.

Lemma v1_voice_greeting_gathers_witness :
  TwilioV1.twilio_voice Sample.configured Sample.unreachable
      (VObj [("From", VStr "+15551234567"); ("SpeechResult", VStr "  ")])
    = (inr tt, [HttpSend "text/xml" (twiml_document TwilioV1.gatherTwiml)])
  /\ includes gather_same_path (twiml_document TwilioV1.gatherTwiml) = true
  /\ includes hangup (twiml_document TwilioV1.gatherTwiml) = false.
Proof.
  apply (v1_voice_greeting_gathers Sample.configured Sample.unreachable
           [("From", VStr "+15551234567"); ("SpeechResult", VStr "  ")]).
  right. exists "  ". split; reflexivity.
Defined.

Lemma v1_voice_answer_ends_call_witness :
  let api := Sample.answers (VStr "We can fix that <today>.") in
  let ask := TwilioV1.askOpenAIForPhone Sample.configured api
               (trim "I have a leaky faucet") (knowledgeBase Sample.configured)
               (caller Sample.leaky_faucet) in
  exists doc,
    TwilioV1.twilio_voice Sample.configured api (VObj Sample.leaky_faucet)
      = (inr tt, (snd ask ++ [HttpSend "text/xml" doc])%list)
    /\ documents_sent (snd ask) = []
    /\ includes hangup doc = true
    /\ includes gather_open doc = false
    /\ ((exists answer, fst ask = inr answer
                        /\ doc = twiml_document (responseTwiml (escape_text answer)))
        \/ (threw ask = true /\ doc = twiml_document errorTwiml)).
Proof.
  intros api.
  apply (v1_voice_answer_ends_call Sample.configured api Sample.leaky_faucet
           "I have a leaky faucet").
  - reflexivity.
  - vm_compute. discriminate.
  - reflexivity.
Defined.

(** *** The completion client, by the content it finds *)

Lemma read_answer_truthy (fallback : string) (r : response) (j content : value) :
  ok r = true ->
  json r = Some j ->
  first_content j = inr content ->
  truthy content = true ->
  read_answer fallback r = call_trim content.
Proof.
  intros Hok Hj Hc Ht. unfold read_answer, response_json.
  rewrite Hok, Hj. cbn [negb rbind]. rewrite Hc. cbn [rbind].
  unfold or_else. rewrite Ht. reflexivity.
Qed.

Section ClientContent.

Variable build : value -> bool -> res string.
Variable g : globals.
Variable api : request -> fetch_outcome.
Variables kb from : value.
Variables question speech prompt voice number : string.
Variable r : response.
Variables jf cf mf : list (string * value).
Variable rest : list value.
Variable content : value.

Hypothesis Hprompt : build kb false = inr prompt.
Hypothesis Hvoice : build kb true = inr voice.
Hypothesis Hnumber : ToString from = inr number.
Hypothesis Hchat : api (chat_request g prompt question) = Resolved r.
Hypothesis Hphone : api (phone_request g voice speech number) = Resolved r.
Hypothesis Hok : ok r = true.
Hypothesis Hjson : json r = Some (VObj jf).
Hypothesis Hchoices : lookup "choices" jf = Some (VArr (VObj cf :: rest)).
Hypothesis Hmessage : lookup "message" cf = Some (VObj mf).
Hypothesis Hcontent : lookup "content" mf = Some content.

(** X11: when the first choice's content is a string that is not empty, the
    completion client returns it trimmed, and uses no fallback: a content of
    white space only comes back as the empty string. *)
Theorem content_text_is_trimmed (c : string) :
  content = VStr c ->
  c <> "" ->
  fst (Common.askOpenAIForChat build g api question kb) = inr (trim c)
  /\ fst (Common.askOpenAIForPhone build g api speech kb from) = inr (trim c).
Proof.
  intros -> Hc.
  pose proof (first_content_present jf cf mf rest (VStr c) Hchoices Hmessage Hcontent)
    as Hfc.
  rewrite (askOpenAIForChat_resolved build g api question kb prompt r Hprompt Hchat).
  rewrite (askOpenAIForPhone_resolved build g api speech kb from voice number r
             Hvoice Hnumber Hphone).
  cbn [fst].
  rewrite !(read_answer_truthy _ r _ _ Hok Hjson Hfc (truthy_text c Hc)).
  split; reflexivity.
Qed.

(** X12: when the first choice's content is truthy but not a string (a list of
    parts, a number), the completion client throws at [.trim()], after its one
    request. *)
Theorem content_not_text_raises :
  truthy content = true ->
  (forall c, content <> VStr c) ->
  Common.askOpenAIForChat build g api question kb
    = (inl (TypeError "trim is not a function"), [Fetch (chat_request g prompt question)])
  /\ Common.askOpenAIForPhone build g api speech kb from
     = (inl (TypeError "trim is not a function"),
        [Fetch (phone_request g voice speech number)]).
Proof.
  intros Ht Hn.
  pose proof (first_content_present jf cf mf rest content Hchoices Hmessage Hcontent)
    as Hfc.
  rewrite (askOpenAIForChat_resolved build g api question kb prompt r Hprompt Hchat).
  rewrite (askOpenAIForPhone_resolved build g api speech kb from voice number r
             Hvoice Hnumber Hphone).
  rewrite !(read_answer_truthy _ r _ _ Hok Hjson Hfc Ht).
  destruct content; try discriminate Ht; try (split; reflexivity).
  exfalso. apply (Hn s). reflexivity.
Qed.

End ClientContent.

Lemma content_text_is_trimmed_witness :
  fst (Server.askOpenAIForChat Sample.configured (Sample.answers (VStr "   "))
         "Do you serve Springfield?" Server.default_knowledge) = inr (trim "   ")
  /\ fst (Server.askOpenAIForPhone Sample.configured (Sample.answers (VStr "   "))
            "I have a leaky faucet" Server.default_knowledge (VStr "+15551234567"))
     = inr (trim "   ").
Proof.
  apply (content_text_is_trimmed Server.buildSystemPrompt Sample.configured
           (Sample.answers (VStr "   ")) Server.default_knowledge (VStr "+15551234567")
           "Do you serve Springfield?" "I have a leaky faucet"
           (Sample.default_prompt false) (Sample.default_prompt true) "+15551234567"
           {| ok := true; status := 200; text := "{...}";
              json := Some (Sample.completion (VStr "   ")) |}
           [("id", VStr "chatcmpl-1");
            ("choices",
             VArr [VObj [("index", VNum 0);
                         ("message", VObj [("role", VStr "assistant");
                                           ("content", VStr "   ")])]])]
           [("index", VNum 0);
            ("message", VObj [("role", VStr "assistant"); ("content", VStr "   ")])]
           [("role", VStr "assistant"); ("content", VStr "   ")]
           [] (VStr "   "));
    try reflexivity; try discriminate; vm_compute; reflexivity.
Defined.

Lemma content_not_text_raises_witness :
  let parts := VArr [VObj [("type", VStr "text"); ("text", VStr "Yes.")]] in
  Server.askOpenAIForChat Sample.configured (Sample.answers parts)
      "Do you serve Springfield?" Server.default_knowledge
    = (inl (TypeError "trim is not a function"),
       [Fetch (chat_request Sample.configured (Sample.default_prompt false)
                 "Do you serve Springfield?")])
  /\ Server.askOpenAIForPhone Sample.configured (Sample.answers parts)
       "I have a leaky faucet" Server.default_knowledge (VStr "+15551234567")
     = (inl (TypeError "trim is not a function"),
        [Fetch (phone_request Sample.configured (Sample.default_prompt true)
                  "I have a leaky faucet" "+15551234567")]).
Proof.
  intros parts.
  apply (content_not_text_raises Server.buildSystemPrompt Sample.configured
           (Sample.answers parts) Server.default_knowledge (VStr "+15551234567")
           "Do you serve Springfield?" "I have a leaky faucet"
           (Sample.default_prompt false) (Sample.default_prompt true) "+15551234567"
           {| ok := true; status := 200; text := "{...}";
              json := Some (Sample.completion parts) |}
           [("id", VStr "chatcmpl-1");
            ("choices",
             VArr [VObj [("index", VNum 0);
                         ("message", VObj [("role", VStr "assistant");
                                           ("content", parts)])]])]
           [("index", VNum 0);
            ("message", VObj [("role", VStr "assistant"); ("content", parts)])]
           [("role", VStr "assistant"); ("content", parts)]
           [] parts);
    try reflexivity; try discriminate; vm_compute; reflexivity.
Defined.

(** *** What is sent to the completion API *)

Lemma askOpenAIForChat_request (build : value -> bool -> res string) (g : globals)
      (api : request -> fetch_outcome) (question : string) (kb : value) (prompt : string) :
  build kb false = inr prompt ->
  requests_made (snd (Common.askOpenAIForChat build g api question kb))
  = [chat_request g prompt question].
Proof.
  intros Hb. unfold Common.askOpenAIForChat.
  rewrite Hb, bind_ret_l, bearer_header, bind_ret_l.
  unfold do_fetch. fold (chat_request g prompt question).
  destruct (api (chat_request g prompt question)) as [e|r]; [reflexivity|].
  unfold bind, lift. reflexivity.
Qed.

Lemma askOpenAIForPhone_request (build : value -> bool -> res string) (g : globals)
      (api : request -> fetch_outcome) (speech : string) (kb from : value)
      (prompt number : string) :
  build kb true = inr prompt ->
  ToString from = inr number ->
  requests_made (snd (Common.askOpenAIForPhone build g api speech kb from))
  = [phone_request g prompt speech number].
Proof.
  intros Hb Hn. unfold Common.askOpenAIForPhone.
  rewrite Hb, bind_ret_l, Hn, bind_ret_l, bearer_header, bind_ret_l.
  unfold do_fetch. fold (phone_request g prompt speech number).
  destruct (api (phone_request g prompt speech number)) as [e|r]; [reflexivity|].
  unfold bind, lift. reflexivity.
Qed.

(** X13: with a credential [key], a question that is not blank makes the chat
    handler of the final revision build the chat system prompt first.  When the
    builder returns, the handler sends exactly one request, whatever the API
    then does: a POST to the completions URL that carries [Bearer key], the
    model [gpt-4.1-mini], temperature 0.3, the prompt and, as the user message,
    the question trimmed and otherwise untouched.  When the builder throws, no
    request is made and the one effect is the frame tagged [error] with the
    fixed apology. *)
Theorem chat_forwards_question (g : globals) (api : request -> fetch_outcome)
        (fields : list (string * value)) (q key : string) :
  lookup "question" fields = Some (VStr q) ->
  trim q <> "" ->
  OPENAI_API_KEY g = Some key ->
  key <> "" ->
  let t := snd (Server.on_message g api (Some (VObj fields))) in
  match Server.buildSystemPrompt (knowledgeBase g) false with
  | inr prompt =>
      exists rq,
        requests_made t = [rq]
        /\ url rq = "https://api.openai.com/v1/chat/completions"
        /\ method rq = "POST"
        /\ headers rq = [("Content-Type", "application/json");
                         ("Authorization", "Bearer " ++ key)]
        /\ model (body rq) = "gpt-4.1-mini"
        /\ messages (body rq) = [("system", prompt); ("user", trim q)]
        /\ temperature (body rq) = (3 # 10)%Q
  | inl _ => t = [WsSend (ErrorFrame Server.chat_apology)]
  end.
Proof.
  intros Hq Hne Hkey Hset t. subst t.
  assert (Hk : truthy (key_value g) = true).
  { unfold key_value. rewrite Hkey. apply truthy_text, Hset. }
  rewrite (on_message_configured g api fields q Hq Hne Hk).
  destruct (Server.buildSystemPrompt (knowledgeBase g) false) as [e|prompt] eqn:Hb.
  - unfold Server.askOpenAIForChat, Common.askOpenAIForChat. rewrite Hb. reflexivity.
  - pose proof (askOpenAIForChat_request Server.buildSystemPrompt g api (trim q)
                  (knowledgeBase g) prompt Hb) as Hr.
    fold Server.askOpenAIForChat in Hr.
    exists (chat_request g prompt (trim q)). split.
    + destruct (Server.askOpenAIForChat g api (trim q) (knowledgeBase g)) as [[e|a] t];
        cbn [snd] in Hr |- *; rewrite requests_made_app, Hr; reflexivity.
    + unfold chat_request, completion_request, auth_header. rewrite Hkey.
      repeat split.
Qed.

(** X14: with a credential, a transcript that is not blank makes the voice
    webhook of the final revision build the phone system prompt and print the
    caller's number first.  When both succeed, the webhook sends exactly one
    request, whatever the API then does: it carries the prompt, temperature
    0.4 and a user message that quotes the trimmed transcript and the caller's
    number.  When either throws, no request is made and the one effect is the
    apology document. *)
Theorem voice_forwards_transcript (g : globals) (api : request -> fetch_outcome)
        (fields : list (string * value)) (speech : string) :
  lookup "SpeechResult" fields = Some (VStr speech) ->
  trim speech <> "" ->
  truthy (key_value g) = true ->
  let t := snd (Server.twilio_voice g api (VObj fields)) in
  match Server.buildSystemPrompt (knowledgeBase g) true, ToString (caller fields) with
  | inr prompt, inr number =>
      exists rq user,
        requests_made t = [rq]
        /\ messages (body rq) = [("system", prompt); ("user", user)]
        /\ temperature (body rq) = (4 # 10)%Q
        /\ model (body rq) = "gpt-4.1-mini"
        /\ includes (dq ++ trim speech ++ dq) user = true
        /\ includes ("Caller phone number (from metadata, may be empty): " ++ number ++ nl)
             user = true
  | _, _ => t = [HttpSend "text/xml" (twiml_document errorTwiml)]
  end.
Proof.
  intros Hs Hne Hk t. subst t.
  rewrite (twilio_voice_configured g api fields speech Hs Hne Hk).
  destruct (Server.buildSystemPrompt (knowledgeBase g) true) as [e|prompt] eqn:Hb.
  { unfold Server.askOpenAIForPhone, Common.askOpenAIForPhone. rewrite Hb.
    destruct (ToString (caller fields)); reflexivity. }
  destruct (ToString (caller fields)) as [e|number] eqn:Hn.
  { unfold Server.askOpenAIForPhone, Common.askOpenAIForPhone.
    rewrite Hb, bind_ret_l, Hn. reflexivity. }
  pose proof (askOpenAIForPhone_request Server.buildSystemPrompt g api (trim speech)
                (knowledgeBase g) (caller fields) prompt number Hb Hn) as Hr.
  fold Server.askOpenAIForPhone in Hr.
  exists (phone_request g prompt (trim speech) number),
         (userContent (trim speech) number).
  split.
  - destruct (Server.askOpenAIForPhone g api (trim speech) (knowledgeBase g)
                (caller fields)) as [[e|a] t];
      cbn [snd] in Hr |- *; rewrite requests_made_app, Hr; reflexivity.
  - split; [reflexivity|]. split; [reflexivity|]. split; [reflexivity|].
    unfold userContent, unlines. cbn [String.concat]. split.
    + repeat first [ solve [apply includes_here, startsWith_app]
                   | apply includes_app_r ].
    + do 2 apply includes_app_r. apply includes_here, startsWith_spec.
      eexists. rewrite !append_assoc. reflexivity.
Qed.

Lemma chat_forwards_question_witness :
  (exists rq,
     requests_made
       (snd (Server.on_message Sample.configured Sample.unreachable
               (Some (VObj [("question", VStr "  Do you serve Springfield? ")])))) = [rq]
     /\ url rq = "https://api.openai.com/v1/chat/completions"
     /\ method rq = "POST"
     /\ headers rq = [("Content-Type", "application/json");
                      ("Authorization", "Bearer " ++ "sk-test")]
     /\ model (body rq) = "gpt-4.1-mini"
     /\ messages (body rq) = [("system", Sample.default_prompt false);
                              ("user", trim "  Do you serve Springfield? ")]
     /\ temperature (body rq) = (3 # 10)%Q)
  /\ snd (Server.on_message null_knowledge Sample.unreachable
            (Some (VObj [("question", VStr "  Do you serve Springfield? ")])))
     = [WsSend (ErrorFrame Server.chat_apology)].
Proof.
  split.
  - apply (chat_forwards_question Sample.configured Sample.unreachable
             [("question", VStr "  Do you serve Springfield? ")]
             "  Do you serve Springfield? " "sk-test").
    + reflexivity.
    + vm_compute. discriminate.
    + reflexivity.
    + discriminate.
  - apply (chat_forwards_question null_knowledge Sample.unreachable
             [("question", VStr "  Do you serve Springfield? ")]
             "  Do you serve Springfield? " "sk-test").
    + reflexivity.
    + vm_compute. discriminate.
    + reflexivity.
    + discriminate.
Defined.

Lemma voice_forwards_transcript_witness :
  (exists rq user,
     requests_made
       (snd (Server.twilio_voice Sample.configured Sample.fails (VObj Sample.leaky_faucet)))
     = [rq]
     /\ messages (body rq) = [("system", Sample.default_prompt true); ("user", user)]
     /\ temperature (body rq) = (4 # 10)%Q
     /\ model (body rq) = "gpt-4.1-mini"
     /\ includes (dq ++ trim "I have a leaky faucet" ++ dq) user = true
     /\ includes ("Caller phone number (from metadata, may be empty): " ++ "+15551234567"
                  ++ nl) user = true)
  /\ snd (Server.twilio_voice null_knowledge Sample.fails (VObj Sample.leaky_faucet))
     = [HttpSend "text/xml" (twiml_document errorTwiml)].
Proof.
  split.
  - apply (voice_forwards_transcript Sample.configured Sample.fails Sample.leaky_faucet
             "I have a leaky faucet").
    + reflexivity.
    + vm_compute. discriminate.
    + reflexivity.
  - apply (voice_forwards_transcript null_knowledge Sample.fails Sample.leaky_faucet
             "I have a leaky faucet").
    + reflexivity.
    + vm_compute. discriminate.
    + reflexivity.
Defined.

(** *** [trim] around a template *)

Lemma solid_not_ws (c : ascii) :
  solid c = true ->
  is_ws1 c = false
  /\ (forall x, is_ws2 c x = false)
  /\ (forall x, is_ws2 x c = false)
  /\ (forall x y, is_ws3 c x y = false)
  /\ (forall x y, is_ws3 x c y = false)
  /\ (forall x y, is_ws3 x y c = false).
Proof.
  unfold solid, is_ws2, is_ws3. intros H.
  apply andb_true_iff in H as [Hlt Hws]. apply negb_true_iff in Hws.
  apply Nat.ltb_lt in Hlt.
  assert (E : forall n, (128 <= n)%nat -> (nat_of_ascii c =? n)%nat = false).
  { intros n Hn. apply Nat.eqb_neq. lia. }
  assert (L : forall n, (128 <= n)%nat -> (n <=? nat_of_ascii c)%nat = false).
  { intros n Hn. apply Nat.leb_gt. lia. }
  split; [exact Hws|].
  repeat split; intros; cbv zeta;
    rewrite ?(E 194%nat), ?(E 160%nat), ?(E 225%nat), ?(E 226%nat), ?(E 227%nat),
      ?(E 239%nat), ?(E 154%nat), ?(E 128%nat), ?(E 129%nat), ?(E 187%nat),
      ?(E 159%nat), ?(E 191%nat), ?(E 168%nat), ?(E 169%nat), ?(E 175%nat),
      ?(L 128%nat) by lia;
    rewrite ?andb_false_r, ?andb_false_l, ?orb_false_r, ?orb_false_l;
    cbn [andb orb]; rewrite ?andb_false_r; reflexivity.
Qed.

(** Text that holds a solid character is not blank, wherever one starts to
    read it. *)
Lemma blank_solid (c : ascii) (r : string) :
  solid c = true -> forall x, blank (x ++ String c r) = false.
Proof.
  intros Hc.
  destruct (solid_not_ws c Hc) as [W1 [W2a [W2b [W3a [W3b W3c]]]]].
  assert (H : forall n x, (String.length x <= n)%nat -> blank (x ++ String c r) = false).
  { induction n as [|n IH]; intros x Hx.
    - destruct x; [|simpl in Hx; lia].
      cbn [append blank]. rewrite W1.
      destruct r as [|c2 r2]; [reflexivity|]. rewrite W2a.
      destruct r2 as [|c3 r3]; [reflexivity|]. now rewrite W3a.
    - destruct x as [|x1 x'].
      + apply (IH ""). simpl. lia.
      + cbn [append blank]. simpl in Hx.
        destruct (is_ws1 x1); [apply IH; lia|].
        destruct x' as [|x2 x''].
        * cbn [append]. rewrite W2b.
          destruct r as [|c3 r3]; [reflexivity|]. now rewrite W3b.
        * cbn [append]. simpl in Hx.
          destruct (is_ws2 x1 x2); [apply IH; lia|].
          destruct x'' as [|x3 x'''].
          -- cbn [append]. now rewrite W3c.
          -- cbn [append]. simpl in Hx.
             destruct (is_ws3 x1 x2 x3); [apply IH; lia | reflexivity]. }
  intros x. apply (H (String.length x)). lia.
Qed.

Lemma last_solid_split (s : string) :
  last_solid s = true -> exists a d, s = a ++ String d "" /\ solid d = true.
Proof.
  induction s as [|c r IH]; [discriminate|].
  cbn [last_solid]. destruct r as [|c2 r2].
  - intros H. exists "", c. split; [reflexivity | exact H].
  - intros H. destruct (IH H) as [a [d [E Hd]]].
    exists (String c a), d. split; [cbn [append]; now rewrite E | exact Hd].
Qed.

Lemma last_solid_app_r (a b : string) :
  last_solid b = true -> last_solid (a ++ b) = true.
Proof.
  intros H. induction a as [|x r IH]; [exact H|].
  cbn [append last_solid]. destruct (r ++ b) eqn:E; [discriminate IH | exact IH].
Qed.

Lemma trimEnd_line (a : string) (d : ascii) :
  solid d = true -> trimEnd (a ++ String d nl) = a ++ String d "".
Proof.
  intros Hd. induction a as [|x r IH].
  - pose proof (blank_solid d nl Hd "") as B. cbn [append] in B.
    cbn [append trimEnd]. rewrite B. reflexivity.
  - pose proof (blank_solid d nl Hd (String x r)) as B. cbn [append] in B.
    cbn [append trimEnd]. rewrite B. now rewrite IH.
Qed.

Lemma trimStart_solid (s : string) : first_solid s = true -> trimStart s = s.
Proof.
  destruct s as [|c r]; [discriminate|]. cbn [first_solid]. intros Hc.
  destruct (solid_not_ws c Hc) as [W1 [W2 [_ [W3 _]]]].
  cbn [trimStart]. rewrite W1.
  destruct r as [|c2 r2]; [reflexivity|]. rewrite W2.
  destruct r2 as [|c3 r3]; [reflexivity|]. now rewrite W3.
Qed.

(** A template literal that opens and closes with a line feed loses exactly
    these two to [trim], whatever it interpolates. *)
Lemma trim_wrapped (body : string) :
  first_solid body = true ->
  last_solid body = true ->
  trim (nl ++ body ++ nl) = body.
Proof.
  intros Hf Hl. unfold trim.
  assert (Hs : trimStart (nl ++ body ++ nl) = body ++ nl).
  { change (nl ++ body ++ nl) with (String (ascii_of_nat 10) (body ++ nl)).
    cbn [trimStart]. change (is_ws1 (ascii_of_nat 10)) with true. cbv iota.
    apply trimStart_solid. destruct body; [discriminate | exact Hf]. }
  rewrite Hs.
  destruct (last_solid_split body Hl) as [a [d [-> Hd]]].
  rewrite append_assoc. cbn [append]. apply trimEnd_line, Hd.
Qed.

Lemma prompt_text_wrapped (name location summary area hours services pricing booking
                           faqs : string) (forPhone : bool) :
  prompt_text name location summary area hours services pricing booking faqs forPhone
  = nl ++ prompt_body name location summary area hours services pricing booking faqs
            forPhone ++ nl.
Proof.
  unfold prompt_text, prompt_body, unlines. cbn [String.concat].
  rewrite !append_assoc. cbn [append]. reflexivity.
Qed.

Lemma prompt_trimmed (name location summary area hours services pricing booking
                      faqs : string) (forPhone : bool) :
  trim (prompt_text name location summary area hours services pricing booking faqs
          forPhone)
  = prompt_body name location summary area hours services pricing booking faqs forPhone.
Proof.
  rewrite prompt_text_wrapped. apply trim_wrapped; [reflexivity|].
  unfold prompt_body, unlines. cbn [String.concat].
  repeat apply last_solid_app_r. vm_compute. reflexivity.
Qed.

(** *** The prompt builder, continued *)

(** X15: on a record with every field of its documented type,
    [buildSystemPrompt] does not throw and returns the template from its first
    to its last visible character: the name and the location, or their fixed
    defaults when empty; the service area joined by a comma and a space; the
    other lists joined by a semicolon and a space; the FAQ pairs apart by a
    blank line; the style line of the channel. *)
Theorem buildSystemPrompt_well_formed (k : KnowledgeRecord) (forPhone : bool) :
  Server.buildSystemPrompt (record_value k) forPhone
  = inr (prompt_body
           (text_else (business_name k) "Handyman of Fairfax")
           (text_else (location k) "Fairfax, VA")
           (summary k)
           (String.concat ", " (service_area k))
           (hours k)
           (String.concat "; " (services k))
           (String.concat "; " (pricing_notes k))
           (String.concat "; " (booking_process k))
           (String.concat (nl ++ nl) (map faq_lines (faqs k)))
           forPhone).
Proof.
  rewrite buildSystemPrompt_record, prompt_trimmed.
  assert (E : forall s, text_else s "" = s).
  { intros s. unfold text_else. destruct (String.eqb s "") eqn:H; [|reflexivity].
    apply String.eqb_eq in H. now subst. }
  now rewrite !E.
Qed.

Lemma earlier_join_texts (fields : list (string * value)) (k sep : string)
      (l : list string) :
  lookup k fields = Some (texts l) ->
  Earlier.joined (VObj fields) k sep = inr (String.concat sep l).
Proof.
  intros H. unfold Earlier.joined. cbn [get_field rbind]. rewrite H.
  unfold or_else. cbn [truthy texts]. fold (texts l). apply join_texts.
Qed.

(** X16: on such a record whose name and location are not empty, the prompt
    builder of the first Twilio revision returns the same prompt as the final
    one, for both channels. *)
Theorem buildSystemPrompt_revisions_agree (k : KnowledgeRecord) (forPhone : bool) :
  business_name k <> "" ->
  location k <> "" ->
  TwilioV1.buildSystemPrompt (record_value k) forPhone
  = Server.buildSystemPrompt (record_value k) forPhone.
Proof.
  intros Hn Hl. rewrite buildSystemPrompt_record.
  assert (J : forall l sep, call_join (or_else (texts l) (VArr [])) sep
                            = inr (String.concat sep l)).
  { intros l sep. unfold or_else. cbn [truthy texts]. apply (join_texts sep l). }
  assert (T : forall s, s <> "" -> text_else s = fun _ => s).
  { intros s Hs. unfold text_else. destruct (String.eqb s "") eqn:E; [|reflexivity].
    apply String.eqb_eq in E. contradiction. }
  rewrite (T _ Hn), (T _ Hl).
  unfold TwilioV1.buildSystemPrompt, Earlier.text_of, text_or, Earlier.joined,
    Earlier.faqs_section, record_value.
  cbn [get_field lookup String.eqb Ascii.eqb Bool.eqb rbind ToString].
  rewrite !J, !text_or_text. cbn [rbind].
  unfold or_else. cbn [truthy faqs_text]. rewrite map_faqs_values. reflexivity.
Qed.

Lemma buildSystemPrompt_revisions_agree_witness :
  TwilioV1.buildSystemPrompt (record_value fairfax) true
  = Server.buildSystemPrompt (record_value fairfax) true.
Proof.
  apply (buildSystemPrompt_revisions_agree fairfax true); discriminate.
Defined.

(** X17: where the revisions part: when a list field of the knowledge record
    holds a truthy value that is no array (a string, say), the prompt builder
    of the first Twilio revision throws, while the final revision renders the
    field as an empty section. *)
Theorem list_field_not_array (fields : list (string * value)) (v : value)
        (forPhone : bool) :
  lookup "service_area" fields = Some v ->
  truthy v = true ->
  isArray v = false ->
  (exists e, TwilioV1.buildSystemPrompt (VObj fields) forPhone = inl e)
  /\ Server.joined (VObj fields) "service_area" ", " = inr "".
Proof.
  intros Hv Ht Ha. split.
  - unfold TwilioV1.buildSystemPrompt.
    destruct (Earlier.text_of (VObj fields) "business_name") as [e|n];
      [exists e; reflexivity|]. cbn [rbind].
    destruct (Earlier.text_of (VObj fields) "location") as [e|l];
      [exists e; reflexivity|]. cbn [rbind].
    destruct (text_or (VObj fields) "summary" "") as [e|s];
      [exists e; reflexivity|]. cbn [rbind].
    unfold Earlier.joined at 1. cbn [get_field rbind]. rewrite Hv.
    unfold or_else. rewrite Ht.
    destruct v; try discriminate Ht; try discriminate Ha; eexists; reflexivity.
  - unfold Server.joined. cbn [get_field rbind]. rewrite Hv, Ha. reflexivity.
Qed.

Lemma list_field_not_array_witness :
  let fields := [("business_name", VStr "Handyman of Fairfax");
                 ("service_area", VStr "Fairfax and Burke")] in
  (exists e, TwilioV1.buildSystemPrompt (VObj fields) false = inl e)
  /\ Server.joined (VObj fields) "service_area" ", " = inr "".
Proof.
  apply (list_field_not_array
           [("business_name", VStr "Handyman of Fairfax");
            ("service_area", VStr "Fairfax and Burke")]
           (VStr "Fairfax and Burke") false); reflexivity.
Defined.

Lemma chat_replies_once_to_text_witness :
  exists f t,
    Server.on_message Sample.unconfigured Sample.unreachable (Some Sample.springfield)
      = (inr tt, t)
    /\ frames_sent t = [f]
    /\ (frame_type f = "answer" \/ frame_type f = "error").
Proof.
  apply (chat_replies_once_to_text Sample.unconfigured Sample.unreachable
           (Some Sample.springfield)
           (match Server.default_knowledge with VObj kb => kb | _ => [] end)).
  - reflexivity.
  - right. exists "(555) 555-5555". reflexivity.
  - right. exists [("question", VStr "Do you serve Springfield?")].
    split; [reflexivity|]. right. exists "Do you serve Springfield?". reflexivity.
Defined.

Lemma chat_question_not_text_always_faults_witness :
  Server.on_message Sample.configured Sample.unreachable
    (Some (VObj [("question", VArr [VStr "Do you serve Springfield?"])]))
  = (inl (TypeError "trim is not a function"), []).
Proof.
  apply (chat_question_not_text_always_faults Sample.configured Sample.unreachable
           [("question", VArr [VStr "Do you serve Springfield?"])]
           (VArr [VStr "Do you serve Springfield?"])).
  - reflexivity.
  - reflexivity.
  - discriminate.
Defined.

(** *** The chat handler of the earlier revisions, with a credential *)

(** X21: in the two earlier revisions too, a question that is not blank, with a
    credential configured, gets exactly one reply: tagged [answer] with the
    client's text when the completion client returns, tagged [error] with the
    fixed apology, and nothing of the upstream error, when it throws. *)
Theorem earlier_chat_reply_follows_completion
        (g : globals) (api : request -> fetch_outcome)
        (fields : list (string * value)) (q : string) :
  lookup "question" fields = Some (VStr q) ->
  trim q <> "" ->
  truthy (key_value g) = true ->
  let reply (ask : M string) : M unit :=
    match ask with
    | (inr answer, t) => (inr tt, (t ++ [WsSend (AnswerFrame answer)])%list)
    | (inl _, t) => (inr tt, (t ++ [WsSend (ErrorFrame Earlier.chat_apology)])%list)
    end in
  TwilioV1.on_message g api (Some (VObj fields))
    = reply (TwilioV1.askOpenAIForChat g api (trim q) (knowledgeBase g))
  /\ Minimal.on_message g api (Some (VObj fields))
     = reply (Minimal.askOpenAI g api (trim q) (knowledgeBase g))
  /\ frames_sent (snd (TwilioV1.askOpenAIForChat g api (trim q) (knowledgeBase g))) = []
  /\ frames_sent (snd (Minimal.askOpenAI g api (trim q) (knowledgeBase g))) = [].
Proof.
  intros Hq Hne Hk reply.
  unfold TwilioV1.on_message, Minimal.on_message, Earlier.on_message.
  cbn [get_field]. rewrite Hq, !bind_ret_l, or_else_text, !bind_ret_l.
  rewrite (truthy_text _ Hne), Hk. cbn [negb]. rewrite !try_reply_with.
  split; [reflexivity|]. split; [reflexivity|].
  split.
  - apply (askOpenAIForChat_trace TwilioV1.buildSystemPrompt g api (trim q)
             (knowledgeBase g)).
  - apply (askOpenAIForChat_trace Minimal.buildSystemPrompt g api (trim q)
             (knowledgeBase g)).
Qed.

Lemma earlier_chat_reply_follows_completion_witness :
  let reply (ask : M string) : M unit :=
    match ask with
    | (inr answer, t) => (inr tt, (t ++ [WsSend (AnswerFrame answer)])%list)
    | (inl _, t) => (inr tt, (t ++ [WsSend (ErrorFrame Earlier.chat_apology)])%list)
    end in
  let kb := knowledgeBase Sample.configured in
  let q := trim "Do you serve Springfield?" in
  TwilioV1.on_message Sample.configured Sample.fails (Some Sample.springfield)
    = reply (TwilioV1.askOpenAIForChat Sample.configured Sample.fails q kb)
  /\ Minimal.on_message Sample.configured Sample.fails (Some Sample.springfield)
     = reply (Minimal.askOpenAI Sample.configured Sample.fails q kb)
  /\ frames_sent (snd (TwilioV1.askOpenAIForChat Sample.configured Sample.fails q kb)) = []
  /\ frames_sent (snd (Minimal.askOpenAI Sample.configured Sample.fails q kb)) = [].
Proof.
  apply (earlier_chat_reply_follows_completion Sample.configured Sample.fails
           [("question", VStr "Do you serve Springfield?")] "Do you serve Springfield?").
  - reflexivity.
  - vm_compute. discriminate.
  - reflexivity.
Defined.

(** *** Loading the knowledge record, continued *)

Lemma lookup_entry (k k' : string) (o : option value) (rest : list (string * value)) :
  lookup k (entry k' o ++ rest)
  = match (if String.eqb k k' then o else None) with
    | Some v => Some v
    | None => lookup k rest
    end.
Proof.
  destruct o as [v|]; cbn [entry app lookup];
    destruct (String.eqb k k'); reflexivity.
Qed.

Ltac source_lookup :=
  unfold source_fields; rewrite !lookup_entry;
  cbn [String.eqb Ascii.eqb Bool.eqb lookup];
  match goal with
  | |- match ?o with _ => _ end = _ => destruct o; reflexivity
  end.

Section Source.

Variable s : SourceRecord.

Lemma lookup_business_name :
  lookup "business_name" (source_fields s) = option_map VStr (src_business_name s).
Proof. source_lookup. Qed.

Lemma lookup_location :
  lookup "location" (source_fields s) = option_map VStr (src_location s).
Proof. source_lookup. Qed.

Lemma lookup_summary :
  lookup "summary" (source_fields s) = option_map VStr (src_summary s).
Proof. source_lookup. Qed.

Lemma lookup_service_area :
  lookup "service_area" (source_fields s) = option_map texts (src_service_area s).
Proof. source_lookup. Qed.

Lemma lookup_hours :
  lookup "hours" (source_fields s) = option_map VStr (src_hours s).
Proof. source_lookup. Qed.

Lemma lookup_services :
  lookup "services" (source_fields s) = option_map texts (src_services s).
Proof. source_lookup. Qed.

Lemma lookup_pricing_notes :
  lookup "pricing_notes" (source_fields s) = option_map texts (src_pricing_notes s).
Proof. source_lookup. Qed.

Lemma lookup_booking_process :
  lookup "booking_process" (source_fields s) = option_map texts (src_booking_process s).
Proof. source_lookup. Qed.

Lemma lookup_faqs :
  lookup "faqs" (source_fields s)
  = option_map (fun l => VArr (map faq_value l)) (src_faqs s).
Proof. source_lookup. Qed.

End Source.

Lemma text_or_source (fields : list (string * value)) (k d : string) (o : option string) :
  lookup k fields = option_map VStr o ->
  text_or (VObj fields) k d = inr (text_else (default "" o) d).
Proof.
  intros H. unfold text_or. cbn [get_field rbind]. rewrite H.
  destruct o as [x|]; [apply text_or_text | reflexivity].
Qed.

Lemma joined_source (fields : list (string * value)) (k sep : string)
      (o : option (list string)) :
  lookup k fields = option_map texts o ->
  Server.joined (VObj fields) k sep = inr (String.concat sep (default [] o)).
Proof.
  intros H. unfold Server.joined. cbn [get_field rbind]. rewrite H.
  destruct o as [l|]; [|reflexivity].
  cbn [option_map default]. unfold texts at 1. cbn [isArray]. apply join_texts.
Qed.

Lemma faqs_section_source (fields : list (string * value))
      (o : option (list (string * string))) :
  lookup "faqs" fields = option_map (fun l => VArr (map faq_value l)) o ->
  Server.faqs_section (VObj fields)
  = inr (String.concat (nl ++ nl) (map faq_lines (default [] o))).
Proof.
  intros H. unfold Server.faqs_section. cbn [get_field rbind]. rewrite H.
  destruct o as [l|]; [|reflexivity].
  cbn [option_map default isArray faqs_text]. rewrite map_faqs_values. reflexivity.
Qed.

Lemma text_else_empty (x : string) : text_else x "" = x.
Proof.
  unfold text_else. destruct (String.eqb x "") eqn:H; [|reflexivity].
  apply String.eqb_eq in H. now subst.
Qed.

(** The prompt built from a source that lacks some fields. *)
Lemma buildSystemPrompt_source (s : SourceRecord) (forPhone : bool) :
  Server.buildSystemPrompt (source_value s) forPhone
  = inr (prompt_body
           (text_else (default "" (src_business_name s)) "Handyman of Fairfax")
           (text_else (default "" (src_location s)) "Fairfax, VA")
           (default "" (src_summary s))
           (String.concat ", " (default [] (src_service_area s)))
           (default "" (src_hours s))
           (String.concat "; " (default [] (src_services s)))
           (String.concat "; " (default [] (src_pricing_notes s)))
           (String.concat "; " (default [] (src_booking_process s)))
           (String.concat (nl ++ nl) (map faq_lines (default [] (src_faqs s))))
           forPhone).
Proof.
  unfold Server.buildSystemPrompt, source_value.
  rewrite (text_or_source _ _ _ _ (lookup_business_name s)).
  rewrite (text_or_source _ _ _ _ (lookup_location s)).
  rewrite (text_or_source _ _ _ _ (lookup_summary s)).
  rewrite (joined_source _ _ _ _ (lookup_service_area s)).
  rewrite (text_or_source _ _ _ _ (lookup_hours s)).
  rewrite (joined_source _ _ _ _ (lookup_services s)).
  rewrite (joined_source _ _ _ _ (lookup_pricing_notes s)).
  rewrite (joined_source _ _ _ _ (lookup_booking_process s)).
  rewrite (faqs_section_source _ _ (lookup_faqs s)).
  cbn [rbind]. rewrite prompt_trimmed, !text_else_empty. reflexivity.
Qed.

(** C8, as the code has it: [load] returns the parsed source as it is, or the
    built-in default on failure ([{}] in the earlier revisions); a field that
    the source lacks is [undefined] in the loaded record.  The defaults are
    applied where the record is read: for a source in which any of the fields
    may be missing, [buildSystemPrompt] on the loaded record does not throw and
    renders a missing list field as the empty string and a missing string field
    as the fallback text of that place (the fixed name and location, empty for
    [summary] and [hours]); after a failed load it renders the four lists the
    default record lacks as empty. *)
Theorem load_keeps_source (fields : list (string * value)) (k sep fallback : string)
        (s : SourceRecord) (forPhone : bool) :
  lookup k fields = None ->
  let kb := Server.load (Some (VObj fields)) in
  kb = VObj fields
  /\ Minimal.load (Some (VObj fields)) = VObj fields
  /\ get_field kb k = inr VUndef
  /\ Server.joined kb k sep = inr ""
  /\ text_or kb k fallback = inr fallback
  /\ (k = "faqs" -> Server.faqs_section kb = inr "")
  /\ Server.load None = Server.default_knowledge
  /\ Minimal.load None = VObj []
  /\ Server.buildSystemPrompt (Server.load (Some (source_value s))) forPhone
     = inr (prompt_body
              (text_else (default "" (src_business_name s)) "Handyman of Fairfax")
              (text_else (default "" (src_location s)) "Fairfax, VA")
              (default "" (src_summary s))
              (String.concat ", " (default [] (src_service_area s)))
              (default "" (src_hours s))
              (String.concat "; " (default [] (src_services s)))
              (String.concat "; " (default [] (src_pricing_notes s)))
              (String.concat "; " (default [] (src_booking_process s)))
              (String.concat (nl ++ nl) (map faq_lines (default [] (src_faqs s))))
              forPhone)
  /\ Server.buildSystemPrompt (Server.load None) forPhone
     = inr (prompt_body
              "Handyman of Fairfax" "Fairfax, VA"
              "Local handyman service for small to medium home repairs, minor carpentry, TV mounting, and general home fixes."
              "Fairfax, Fairfax Station, Burke, Springfield"
              ("Monday" ++ Server.en_dash ++ "Saturday, 8:00 AM " ++ Server.en_dash
               ++ " 6:00 PM")
              "" "" "" "" forPhone).
Proof.
  intros Hk kb. subst kb. cbn [Server.load Minimal.load Earlier.load].
  split; [reflexivity|]. split; [reflexivity|].
  split; [cbn [get_field]; now rewrite Hk|].
  split; [unfold Server.joined; cbn [get_field rbind]; now rewrite Hk|].
  split; [unfold text_or; cbn [get_field rbind]; now rewrite Hk|].
  split; [intros ->; unfold Server.faqs_section; cbn [get_field rbind]; now rewrite Hk|].
  split; [reflexivity|]. split; [reflexivity|].
  split; [apply buildSystemPrompt_source|].
  apply (buildSystemPrompt_source
           {| src_business_name := Some "Handyman of Fairfax";
              src_location := Some "Fairfax, VA";
              src_summary := Some "Local handyman service for small to medium home repairs, minor carpentry, TV mounting, and general home fixes.";
              src_service_area := Some ["Fairfax"; "Fairfax Station"; "Burke"; "Springfield"];
              src_hours := Some ("Monday" ++ Server.en_dash ++ "Saturday, 8:00 AM "
                                 ++ Server.en_dash ++ " 6:00 PM");
              src_services := None; src_pricing_notes := None;
              src_booking_process := None; src_faqs := None;
              src_contact_phone := Some "(555) 555-5555" |} forPhone).
Qed.

Lemma load_keeps_source_witness :
  let kb := Server.load (Some (VObj [("business_name", VStr "Handyman of Fairfax")])) in
  kb = VObj [("business_name", VStr "Handyman of Fairfax")]
  /\ Minimal.load (Some (VObj [("business_name", VStr "Handyman of Fairfax")]))
     = VObj [("business_name", VStr "Handyman of Fairfax")]
  /\ get_field kb "faqs" = inr VUndef
  /\ Server.joined kb "faqs" "; " = inr ""
  /\ text_or kb "faqs" "" = inr ""
  /\ ("faqs" = "faqs" -> Server.faqs_section kb = inr "")
  /\ Server.load None = Server.default_knowledge
  /\ Minimal.load None = VObj []
  /\ Server.buildSystemPrompt kb true
     = inr (prompt_body "Handyman of Fairfax" "Fairfax, VA" "" "" "" "" "" "" "" true)
  /\ Server.buildSystemPrompt (Server.load None) true
     = inr (prompt_body
              "Handyman of Fairfax" "Fairfax, VA"
              "Local handyman service for small to medium home repairs, minor carpentry, TV mounting, and general home fixes."
              "Fairfax, Fairfax Station, Burke, Springfield"
              ("Monday" ++ Server.en_dash ++ "Saturday, 8:00 AM " ++ Server.en_dash
               ++ " 6:00 PM")
              "" "" "" "" true).
Proof.
  apply (load_keeps_source [("business_name", VStr "Handyman of Fairfax")] "faqs" "; " ""
           name_only true).
  reflexivity.
Defined.
